(** * Anya shop guardian: the budget-verdict engine

    A shallow embedding of [app/agents/tools.py] (the [AgentTools] class over
    the SQL session), of [app/main.py] (the FastAPI MVP over the in-memory
    storage) and of [app/agents/mcp.py] (the conversational agent), together
    with the properties of the verdict engine, the spending aggregator, the
    mutators, the message composer and the agent.

    Conventions of the embedding:
    - currency amounts are Python floats in the source; they are idealised
      here as exact rationals ([Q]), compared with [Qle_bool].  Rounding is
      outside the model, so the properties are stated on the values the code
      computes, in its own order of operations, and none of them rests on
      regrouping or cancelling sums;
    - [datetime.utcnow()] is an explicit argument [now];
    - the SQL session is a record of three tables kept in insertion order;
      a query is a [filter] over the table, [.first()] its head;
    - Python dictionaries used as maps are [gmap]s, result dictionaries with a
      fixed set of keys are records;
    - [str] is [string], the UTF-8 bytes of the text; [str.upper] and
      [str.lower] are Python's, taken as an interface ([StrCase]) together
      with what they do on ASCII strings. *)

From Stdlib Require Import ZArith QArith Qabs Lqa String Ascii List Lia.
From Stdlib Require Import Sorted Permutation.
From stdpp Require Import gmap strings list fin_maps pretty.

Local Open Scope string_scope.
Local Open Scope Z_scope.

(** ** Naive datetimes *)

Module Datetime.

Record datetime : Type := mk_datetime {
  year : Z; month : Z; day : Z;
  hour : Z; minute : Z; second : Z; microsecond : Z
}.

Definition is_leap (y : Z) : bool :=
  (y mod 4 =? 0) && (negb (y mod 100 =? 0) || (y mod 400 =? 0)).

Definition days_in_month (y m : Z) : Z :=
  if m =? 2 then (if is_leap y then 29 else 28)
  else if (m =? 4) || (m =? 6) || (m =? 9) || (m =? 11) then 30
  else 31.

(** The checks of the [datetime] constructor. *)
Definition valid (d : datetime) : bool :=
  (1 <=? year d) && (year d <=? 9999) &&
  (1 <=? month d) && (month d <=? 12) &&
  (1 <=? day d) && (day d <=? days_in_month (year d) (month d)) &&
  (0 <=? hour d) && (hour d <? 24) &&
  (0 <=? minute d) && (minute d <? 60) &&
  (0 <=? second d) && (second d <? 60) &&
  (0 <=? microsecond d) && (microsecond d <? 1000000).

(** Comparison of naive datetimes is lexicographic on the fields. *)
Definition lex (c1 c2 : comparison) : comparison :=
  match c1 with Eq => c2 | _ => c1 end.

Definition compare (a b : datetime) : comparison :=
  lex (year a ?= year b)
 (lex (month a ?= month b)
 (lex (day a ?= day b)
 (lex (hour a ?= hour b)
 (lex (minute a ?= minute b)
 (lex (second a ?= second b)
      (microsecond a ?= microsecond b)))))).

(** [a >= b] *)
Definition geb (a b : datetime) : bool :=
  match compare a b with Lt => false | _ => true end.

(** [a < b] *)
Definition ltb (a b : datetime) : bool :=
  match compare a b with Lt => true | _ => false end.

(** [a <= b] *)
Definition leb (a b : datetime) : bool := geb b a.

(** [datetime(year=now.year, month=now.month, day=1)] *)
Definition month_start (now : datetime) : datetime :=
  mk_datetime (year now) (month now) 1 0 0 0 0.

(** The first instant of the month after the one containing [now]; the
    source never computes it, the specification's window is stated with it. *)
Definition next_month_start (now : datetime) : datetime :=
  if month now =? 12 then mk_datetime (year now + 1) 1 1 0 0 0 0
  else mk_datetime (year now) (month now + 1) 1 0 0 0 0.

(** The calendar month (year and month) of [ts] is that of [now]. *)
Definition same_month (ts now : datetime) : bool :=
  (year ts =? year now) && (month ts =? month now).

(** [d + timedelta(days=1)] and [d - timedelta(days=1)] *)
Definition next_day (d : datetime) : datetime :=
  if day d <? days_in_month (year d) (month d)
  then mk_datetime (year d) (month d) (day d + 1)
         (hour d) (minute d) (second d) (microsecond d)
  else if month d <? 12
  then mk_datetime (year d) (month d + 1) 1
         (hour d) (minute d) (second d) (microsecond d)
  else mk_datetime (year d + 1) 1 1
         (hour d) (minute d) (second d) (microsecond d).

Definition prev_day (d : datetime) : datetime :=
  if 1 <? day d
  then mk_datetime (year d) (month d) (day d - 1)
         (hour d) (minute d) (second d) (microsecond d)
  else if 1 <? month d
  then mk_datetime (year d) (month d - 1) (days_in_month (year d) (month d - 1))
         (hour d) (minute d) (second d) (microsecond d)
  else mk_datetime (year d - 1) 12 31
         (hour d) (minute d) (second d) (microsecond d).

(** [d + timedelta(days=n)], day by day.  The sum raises [OverflowError]
    outside the years 1..9999; the function is total and
    [add_days_defined] below says where the sum is defined: the properties
    that speak of the sum are stated there. *)
Definition add_days (d : datetime) (n : Z) : datetime :=
  if 0 <=? n then Z.iter n next_day d else Z.iter (- n) prev_day d.

(** The inputs on which [d + timedelta(days=n)] raises no [OverflowError]:
    [timedelta] accepts at most 999999999 days either way, and the sum must
    fall in the years 1..9999. *)
Definition add_days_defined (d : datetime) (n : Z) : bool :=
  (Z.abs n <=? 999999999)
  && (1 <=? year (add_days d n)) && (year (add_days d n) <=? 9999).

End Datetime.

Abbreviation datetime := Datetime.datetime.

(** ** Python truthiness and comparisons on amounts *)

(** [a >= b] on amounts *)
Definition Qge_bool (a b : Q) : bool := Qle_bool b a.

(** Truthiness of an optional float: [None] and [0.0] are falsy. *)
Definition truthy_float (x : option Q) : bool :=
  match x with
  | None => false
  | Some v => negb (Qeq_bool v 0)
  end.

(** Truthiness of an optional int. *)
Definition truthy_int (x : option Z) : bool :=
  match x with
  | None => false
  | Some v => negb (v =? 0)
  end.

(** [x or 0] for an optional float *)
Definition float_or_0 (x : option Q) : Q :=
  match x with
  | Some v => if truthy_float x then v else 0%Q
  | None => 0%Q
  end.

(** ** Letter case *)

(** Upper and lower case on ASCII strings: the letters a-z and A-Z are
    exchanged, every other character stays. *)
Definition upper_ascii (c : ascii) : ascii :=
  let n := nat_of_ascii c in
  if ((97 <=? n) && (n <=? 122))%nat then ascii_of_nat (n - 32) else c.

Fixpoint upper (s : string) : string :=
  match s with
  | EmptyString => EmptyString
  | String c s' => String (upper_ascii c) (upper s')
  end.

Definition lower_ascii (c : ascii) : ascii :=
  let n := nat_of_ascii c in
  if ((65 <=? n) && (n <=? 90))%nat then ascii_of_nat (n + 32) else c.

Fixpoint lower (s : string) : string :=
  match s with
  | EmptyString => EmptyString
  | String c s' => String (lower_ascii c) (lower s')
  end.

(** A string of ASCII characters only. *)
Fixpoint is_ascii (s : string) : bool :=
  match s with
  | EmptyString => true
  | String c s' => (nat_of_ascii c <? 128)%nat && is_ascii s'
  end.

(** [str.upper] and [str.lower].  Python maps every Unicode character by its
    case tables; the two functions are taken as they are, with the one fact
    used about them: on a string of ASCII characters they are [upper] and
    [lower]. *)
Class StrCase : Type := {
  str_upper : string -> string;
  str_lower : string -> string;
  str_upper_ascii : forall s, is_ascii s = true -> str_upper s = upper s;
  str_lower_ascii : forall s, is_ascii s = true -> str_lower s = lower s
}.

(** ** [app/agents/tools.py]: the agent tools over the SQL session *)

Module Tools.

(** Modelled from the spec: the declarations of [app/db/models.py], which is
    not among the sources.  [GoalStatus] and [TransactionCategory] are the
    closed sets of the data model, with the lower-case member values that
    [tools.py] compares against; [progress_percentage] is the derived
    attribute of the data model (0 for a zero target). *)
Inductive GoalStatus : Type := ACTIVE | COMPLETED | ABANDONED.

Inductive TransactionCategory : Type :=
  SHOPPING | FOOD | ENTERTAINMENT | TRANSPORT | BILLS | OTHER.

#[global] Instance GoalStatus_eq_dec : EqDecision GoalStatus.
Proof. solve_decision. Defined.

#[global] Instance TransactionCategory_eq_dec : EqDecision TransactionCategory.
Proof. solve_decision. Defined.

Definition all_categories : list TransactionCategory :=
  [SHOPPING; FOOD; ENTERTAINMENT; TRANSPORT; BILLS; OTHER].

Definition category_name (c : TransactionCategory) : string :=
  match c with
  | SHOPPING => "SHOPPING" | FOOD => "FOOD" | ENTERTAINMENT => "ENTERTAINMENT"
  | TRANSPORT => "TRANSPORT" | BILLS => "BILLS" | OTHER => "OTHER"
  end.

Definition category_value (c : TransactionCategory) : string :=
  match c with
  | SHOPPING => "shopping" | FOOD => "food" | ENTERTAINMENT => "entertainment"
  | TRANSPORT => "transport" | BILLS => "bills" | OTHER => "other"
  end.

Definition status_value (s : GoalStatus) : string :=
  match s with
  | ACTIVE => "active" | COMPLETED => "completed" | ABANDONED => "abandoned"
  end.

(** [TransactionCategory[name]]: [None] stands for the [KeyError]. *)
Definition category_getitem (name : string) : option TransactionCategory :=
  List.find (fun c => String.eqb (category_name c) name) all_categories.

Record User : Type := mk_User {
  user_pk : Z;
  telegram_id : string
}.

Record Goal : Type := mk_Goal {
  goal_pk : Z;
  goal_user_id : Z;
  title : string;
  target_amount : Q;
  deadline : option datetime;
  month_nonessential_budget : option Q;
  status : GoalStatus;
  current_amount : Q
}.

Definition progress_percentage (g : Goal) : Q :=
  if Qeq_bool (target_amount g) 0 then 0%Q
  else (current_amount g / target_amount g * 100)%Q.

Record Transaction : Type := mk_Transaction {
  transaction_pk : Z;
  tx_user_id : Z;
  amount : Q;
  merchant : string;
  category : TransactionCategory;
  timestamp : datetime
}.

(** The session: three tables in insertion order, keys assigned by the
    database on insertion. *)
Record Session : Type := mk_Session {
  users : list User;
  goals : list Goal;
  transactions : list Transaction
}.

Definition empty_session : Session := mk_Session [] [] [].

Definition next_pk {A : Type} (table : list A) : Z := Z.of_nat (length table) + 1.

(** [settings] of [app/config.py]: only the field the tools read. *)
Record Settings : Type := mk_Settings {
  comfort_zone_threshold : Q
}.

(** The default configuration named by the specification. *)
Definition default_settings : Settings := mk_Settings (1 # 2).

(** An [AgentTools] instance; the session is threaded explicitly. *)
Record AgentTools : Type := mk_AgentTools {
  user_id : string;
  user : User
}.

Definition _get_or_create_user (db : Session) (uid : string) : Session * User :=
  match List.find (fun u => String.eqb (telegram_id u) uid) (users db) with
  | Some u => (db, u)
  | None =>
      let u := mk_User (next_pk (users db)) uid in
      (mk_Session (users db ++ [u]) (goals db) (transactions db), u)
  end.

Definition AgentTools_init (db : Session) (uid : string) : Session * AgentTools :=
  let '(db', u) := _get_or_create_user db uid in
  (db', mk_AgentTools uid u).

(** *** Goals *)

Record GoalCreated : Type := mk_GoalCreated {
  gc_goal_id : Z;
  gc_title : string;
  gc_target_amount : Q;
  gc_deadline : option datetime;
  gc_status : string
}.

Definition set_saving_goal (self : AgentTools) (db : Session) (now : datetime)
    (title_ : string) (target_amount_ : Q) (deadline_days : option Z)
    (month_nonessential_budget_ : option Q) : Session * GoalCreated :=
  let deadline_ :=
    if truthy_int deadline_days
    then Some (Datetime.add_days now (default 0 deadline_days))
    else None in
  let goal :=
    mk_Goal (next_pk (goals db)) (user_pk (user self)) title_ target_amount_
            deadline_ month_nonessential_budget_ ACTIVE 0%Q in
  (mk_Session (users db) (goals db ++ [goal]) (transactions db),
   mk_GoalCreated (goal_pk goal) (title goal) (target_amount goal)
                  (deadline goal) (status_value (status goal))).

(** The query shared by the readers: the user's goals with status ACTIVE. *)
Definition active_goals_query (self : AgentTools) (db : Session) : list Goal :=
  List.filter
    (fun g => (goal_user_id g =? user_pk (user self)) && bool_decide (status g = ACTIVE))
    (goals db).

Record GoalInfo : Type := mk_GoalInfo {
  gi_goal_id : Z;
  gi_title : string;
  gi_target_amount : Q;
  gi_current_amount : Q;
  gi_progress_percentage : Q;
  gi_deadline : option datetime;
  gi_month_nonessential_budget : option Q
}.

Definition goal_info (g : Goal) : GoalInfo :=
  mk_GoalInfo (goal_pk g) (title g) (target_amount g) (current_amount g)
              (progress_percentage g) (deadline g) (month_nonessential_budget g).

Definition get_active_goals (self : AgentTools) (db : Session) : list GoalInfo :=
  List.map goal_info (active_goals_query self db).

(** *** The spending aggregator *)

(** [category in ["shopping", "food", "entertainment"]] *)
Definition nonessential (category_ : string) : bool :=
  existsb (String.eqb category_) ["shopping"; "food"; "entertainment"].

(** The query of [analyze_spending_pattern]: the user's transactions with
    [timestamp >= month_start]. *)
Definition month_transactions (self : AgentTools) (db : Session) (now : datetime)
    : list Transaction :=
  List.filter
    (fun t => (tx_user_id t =? user_pk (user self))
              && Datetime.geb (timestamp t) (Datetime.month_start now))
    (transactions db).

(** One iteration of the loop over the transactions; the state is the pair
    [(category_totals, total_nonessential)].  The key read by [+=] has just
    been set, so the [None] branch of the second lookup is never taken. *)
Definition spending_step (acc : gmap string Q * Q) (tx : Transaction)
    : gmap string Q * Q :=
  let category_ := category_value (category tx) in
  let amount_ := amount tx in
  let category_totals :=
    match fst acc !! category_ with
    | None => <[category_ := 0%Q]> (fst acc)
    | Some _ => fst acc
    end in
  let category_totals :=
    match category_totals !! category_ with
    | Some v => <[category_ := (v + amount_)%Q]> category_totals
    | None => category_totals
    end in
  let total_nonessential :=
    if nonessential category_ then (snd acc + amount_)%Q else snd acc in
  (category_totals, total_nonessential).

Record SpendingAnalysis : Type := mk_SpendingAnalysis {
  sa_total_nonessential : Q;
  sa_category_breakdown : gmap string Q;
  sa_month_nonessential_budget : option Q;
  sa_remaining_budget : option Q;
  sa_transaction_count : nat
}.

Definition analyze_spending_pattern (self : AgentTools) (db : Session)
    (now : datetime) : SpendingAnalysis :=
  let transactions_ := month_transactions self db now in
  let acc := fold_left spending_step transactions_ (∅, 0%Q) in
  let category_totals := fst acc in
  let total_nonessential := snd acc in
  let active_goal := head (active_goals_query self db) in
  let budget :=
    match active_goal with
    | Some g => month_nonessential_budget g
    | None => None
    end in
  let remaining_budget :=
    match budget with
    | Some b => if truthy_float budget then Some (b - total_nonessential)%Q else None
    | None => None
    end in
  mk_SpendingAnalysis total_nonessential category_totals budget remaining_budget
                      (length transactions_).

(** *** The verdict engine *)

Inductive BudgetStatus : Type :=
| StatusNoGoal (verdict message : string)
| StatusVerdict (verdict label : string)
                (total_spent budget remaining saving_goal : Q)
                (goal_title : string).

Definition bs_verdict (r : BudgetStatus) : string :=
  match r with
  | StatusNoGoal v _ => v
  | StatusVerdict v _ _ _ _ _ _ => v
  end.

Definition bs_remaining (r : BudgetStatus) : option Q :=
  match r with
  | StatusNoGoal _ _ => None
  | StatusVerdict _ _ _ _ rem _ _ => Some rem
  end.

Definition check_budget_status (settings : Settings) (self : AgentTools)
    (db : Session) (now : datetime) : BudgetStatus :=
  let spending := analyze_spending_pattern self db now in
  let active_goal := head (active_goals_query self db) in
  match active_goal with
  | None => StatusNoGoal "NO_GOAL" "No active goal set"
  | Some active_goal =>
      let total_spent := sa_total_nonessential spending in
      let budget := float_or_0 (month_nonessential_budget active_goal) in
      let remaining := (budget - total_spent)%Q in
      let saving_goal := target_amount active_goal in
      let '(verdict, label) :=
        if Qge_bool remaining (saving_goal * comfort_zone_threshold settings)
        then ("GREEN", "on track")
        else if Qge_bool remaining 0
        then ("ORANGE", "borderline")
        else ("RED", "over budget") in
      StatusVerdict verdict label total_spent budget remaining saving_goal
                    (title active_goal)
  end.

(** *** Recording a transaction *)

Record TransactionInfo : Type := mk_TransactionInfo {
  ti_transaction_id : Z;
  ti_amount : Q;
  ti_merchant : string;
  ti_category : string;
  ti_timestamp : datetime
}.

(** The timestamp column defaults to the creation time, here [now]. *)
Definition add_transaction `{!StrCase} (self : AgentTools) (db : Session)
    (now : datetime) (amount_ : Q) (merchant_ : string) (category_ : string)
    : Session * TransactionInfo :=
  let cat_enum :=
    match category_getitem (str_upper category_) with
    | Some c => c
    | None => OTHER
    end in
  let transaction :=
    mk_Transaction (next_pk (transactions db)) (user_pk (user self))
                   amount_ merchant_ cat_enum now in
  (mk_Session (users db) (goals db) (transactions db ++ [transaction]),
   mk_TransactionInfo (transaction_pk transaction) (amount transaction)
                      (merchant transaction)
                      (category_value (category transaction))
                      (timestamp transaction)).

(** *** Recent transactions *)

(** The dictionary built for a stored transaction. *)
Definition transaction_info (t : Transaction) : TransactionInfo :=
  mk_TransactionInfo (transaction_pk t) (amount t) (merchant t)
                     (category_value (category t)) (timestamp t).

(** [ORDER BY timestamp DESC]: insertion into a list that runs from the
    latest to the earliest; rows with the same timestamp stay in table order
    (the order among them is the database's choice). *)
Fixpoint insert_desc (t : Transaction) (l : list Transaction) : list Transaction :=
  match l with
  | [] => [t]
  | x :: l' =>
      if Datetime.ltb (timestamp t) (timestamp x)
      then x :: insert_desc t l'
      else t :: l
  end.

Definition order_by_timestamp_desc (l : list Transaction) : list Transaction :=
  fold_right insert_desc [] l.

Definition fetch_recent_transactions (self : AgentTools) (db : Session)
    (now : datetime) (days : Z) : list TransactionInfo :=
  let cutoff := Datetime.add_days now (- days) in
  let transactions_ :=
    order_by_timestamp_desc
      (List.filter
         (fun t => (tx_user_id t =? user_pk (user self))
                   && Datetime.geb (timestamp t) cutoff)
         (transactions db)) in
  List.map transaction_info transactions_.

End Tools.

(** ** [app/main.py]: the purchase endpoint over the in-memory storage *)

Module Main.

(** The dictionaries the storage hands out, with the keys [main.py] reads. *)
Record user_dict : Type := mk_user {
  month_saving_goal : Q;
  month_nonessential_budget : Q
}.

Record tx_dict : Type := mk_tx {
  amount : Q;
  merchant : string;
  category : string;
  timestamp : datetime
}.

(** [AddTransactionRequest], with the fields [add_tx] reads. *)
Record AddTransactionRequest : Type := mk_AddTransactionRequest {
  user_id : string;
  req_amount : Q;
  req_merchant : string;
  req_category : string
}.

(** The functions imported from [app/storage.py], which is not among the
    sources: they are the interface the endpoint is written against. *)
Class StorageOps (Storage : Type) : Type := {
  get_user : Storage -> string -> option user_dict;
  add_transaction :
    Storage -> datetime -> string -> Q -> string -> string -> Storage * tx_dict;
  get_user_transactions : Storage -> string -> list tx_dict
}.

(** [str] of a float, as an f-string renders [{x}]: Python's shortest
    round-trip representation, kept abstract. *)
Class FloatStr : Type := { str_float : Q -> string }.

(** Rounding to the nearest integer, ties to even. *)
Definition round_half_even (x : Q) : Z :=
  let n := Qnum x in
  let d := Z.pos (Qden x) in
  let q := n / d in
  let r := n mod d in
  match 2 * r ?= d with
  | Lt => q
  | Gt => q + 1
  | Eq => if Z.even q then q else q + 1
  end.

(** [f"{x:.0f}"] *)
Definition format_0f (x : Q) : string :=
  (if Qle_bool 0 x then EmptyString else "-") +:+ pretty (round_half_even (Qabs x)).

(** [max(x, 0)]: the first argument unless the second is greater. *)
Definition max_0 (x : Q) : Q := if negb (Qle_bool 0 x) then 0%Q else x.

Definition nl : string := String (ascii_of_nat 10) EmptyString.

Section Endpoint.

Context {Storage : Type} `{!StorageOps Storage} `{!FloatStr}.

Definition calc_month_nonessential_spend (st : Storage) (now : datetime)
    (uid : string) : Q :=
  let txs := get_user_transactions st uid in
  let month_start := Datetime.month_start now in
  fold_left
    (fun total tx =>
       if Datetime.geb (timestamp tx) month_start
          && existsb (String.eqb (category tx)) ["shopping"; "food"; "entertainment"]
       then (total + amount tx)%Q
       else total)
    txs 0%Q.

Definition evaluate_purchase (user : user_dict) (tx : tx_dict)
    (month_spend_nonessential_before : Q) : string * string * Q :=
  let nonessential_budget := month_nonessential_budget user in
  let remaining_before := (nonessential_budget - month_spend_nonessential_before)%Q in
  let remaining_after := (remaining_before - amount tx)%Q in
  if Qge_bool remaining_after (month_saving_goal user * (1 # 2))
  then ("GREEN", "probably okay for your saving goal", remaining_after)
  else if Qge_bool remaining_after 0
  then ("ORANGE", "borderline for your saving goal", remaining_after)
  else ("RED", "hurting your saving goal this month", remaining_after).

Definition emoji_map : gmap string string :=
  {[ "GREEN" := "ðŸŸ¢"; "ORANGE" := "ðŸŸ "; "RED" := "ðŸ”´" ]}.

Definition build_verdict_message (user : user_dict) (tx : tx_dict)
    (verdict label : string) (remaining_after : Q) : string :=
  let emoji := default "âšª" (emoji_map !! verdict) in
  let month_goal := month_saving_goal user in
  emoji +:+ " You just spent â‚¹" +:+ str_float (amount tx)
        +:+ " on " +:+ merchant tx +:+ "." +:+ nl
  +:+ "This month you want to save â‚¹" +:+ str_float month_goal +:+ "." +:+ nl
  +:+ "Based on your current spending, this purchase is " +:+ label +:+ "."
        +:+ nl +:+ nl
  +:+ "Approx. non-essential budget left this month after this: â‚¹"
        +:+ format_0f (max_0 remaining_after) +:+ "." +:+ nl
  +:+ "If you want, we can adjust something else to keep you on track. ðŸ’¸".

(** The JSON body of the answer. *)
Inductive AddTxResponse : Type :=
| UserNotFound (ok : bool) (error : string)
| Evaluated (ok : bool) (transaction : tx_dict) (verdict verdict_label : string)
            (month_spend_nonessential_before : Q)
            (remaining_nonessential_budget_after : Q)
            (notification_message : string) (notify_status : string).

(** [add_tx]: the new storage, the response, and the text handed to the
    background task [send_telegram_text] (if any). *)
Definition add_tx (st : Storage) (now : datetime) (body : AddTransactionRequest)
    : Storage * AddTxResponse * option string :=
  match get_user st (user_id body) with
  | None => (st, UserNotFound false "User not found", None)
  | Some user =>
      let '(st', tx) :=
        add_transaction st now (user_id body) (req_amount body)
                        (req_merchant body) (req_category body) in
      let month_spend_total := calc_month_nonessential_spend st' now (user_id body) in
      let month_spend_before := (month_spend_total - req_amount body)%Q in
      let '(verdict, label, remaining_after) :=
        evaluate_purchase user tx month_spend_before in
      let verdict_message :=
        build_verdict_message user tx verdict label remaining_after in
      (st',
       Evaluated true tx verdict label month_spend_before remaining_after
                 verdict_message "telegram_send_triggered",
       Some verdict_message)
  end.

End Endpoint.

End Main.

(** ** [app/agents/mcp.py]: the conversational agent *)

Module Mcp.
Import Tools.

(** [sub in s] on strings. *)
Fixpoint contains (sub s : string) : bool :=
  String.prefix sub s
  || match s with
     | EmptyString => false
     | String _ s' => contains sub s'
     end.

(** [any(word in s for word in words)] *)
Definition any_in (words : list string) (s : string) : bool :=
  existsb (fun word => contains word s) words.

(** [sep.join(l)] *)
Definition join (sep : string) (l : list string) : string :=
  match l with
  | [] => EmptyString
  | x :: l' => fold_left (fun acc y => acc +:+ sep +:+ y) l' x
  end.

Record ChatMessage : Type := mk_ChatMessage {
  role : string;
  content : string
}.

(** The context dictionary built by [observe]; [St] is the type of the
    conversation state kept by the session manager. *)
Record Context (St : Type) : Type := mk_Context {
  user_message : string;
  history : list ChatMessage;
  goals : list GoalInfo;
  budget_status : BudgetStatus;
  conversation_state : St
}.

Arguments mk_Context {St}.
Arguments user_message {St}.
Arguments history {St}.
Arguments goals {St}.
Arguments budget_status {St}.
Arguments conversation_state {St}.

(** Reading a key of the budget-status dictionary; [None] stands for the
    [KeyError] on a dictionary without the key. *)
Definition getitem_label (b : BudgetStatus) : option string :=
  match b with
  | StatusVerdict _ l _ _ _ _ _ => Some l
  | StatusNoGoal _ _ => None
  end.

Definition getitem_total_spent (b : BudgetStatus) : option Q :=
  match b with
  | StatusVerdict _ _ t _ _ _ _ => Some t
  | StatusNoGoal _ _ => None
  end.

Definition getitem_budget (b : BudgetStatus) : option Q :=
  match b with
  | StatusVerdict _ _ _ bu _ _ _ => Some bu
  | StatusNoGoal _ _ => None
  end.

Definition getitem_remaining (b : BudgetStatus) : option Q :=
  match b with
  | StatusVerdict _ _ _ _ r _ _ => Some r
  | StatusNoGoal _ _ => None
  end.

Record Reasoning : Type := mk_Reasoning {
  intent : string;
  response : string;
  actions : list string
}.

(** The line of [_format_context] for one goal. *)
Definition goal_line (g : GoalInfo) : string :=
  "- " +:+ gi_title g +:+ ": ₹" +:+ Main.format_0f (gi_current_amount g)
  +:+ " / ₹" +:+ Main.format_0f (gi_target_amount g)
  +:+ " (" +:+ Main.format_0f (gi_progress_percentage g) +:+ "%)".

Definition _format_context {St : Type} (context : Context St) : option string :=
  let parts :=
    match goals context with
    | [] => ["No active goals set."]
    | _ :: _ =>
        ["Active Goals:" +:+ Main.nl
         +:+ join Main.nl (List.map goal_line (goals context))]
    end in
  let budget := budget_status context in
  if negb (String.eqb (bs_verdict budget) "NO_GOAL")
  then
    label ← getitem_label budget;
    total_spent ← getitem_total_spent budget;
    budget_ ← getitem_budget budget;
    remaining ← getitem_remaining budget;
    Some (join (Main.nl +:+ Main.nl)
            (parts ++
             [Main.nl +:+ "Budget Status: " +:+ bs_verdict budget
              +:+ " (" +:+ label +:+ ")" +:+ Main.nl
              +:+ "Spent: ₹" +:+ Main.format_0f total_spent
              +:+ " / ₹" +:+ Main.format_0f budget_ +:+ Main.nl
              +:+ "Remaining: ₹" +:+ Main.format_0f remaining]))
  else Some (join (Main.nl +:+ Main.nl) parts).

Definition _detect_intent `{!StrCase} (user_message_ assistant_response : string)
    : string :=
  let user_lower := str_lower user_message_ in
  if any_in ["goal"; "save"; "want to buy"; "planning"] user_lower
  then "set_goal"
  else if any_in ["status"; "how am i"; "progress"; "doing"] user_lower
  then "check_status"
  else if any_in ["spent"; "spending"; "budget"; "transactions"] user_lower
  then "analyze_spending"
  else "general_chat".

Definition _fallback_reasoning `{!StrCase} {St : Type} (context : Context St)
    : option Reasoning :=
  let user_message_ := str_lower (user_message context) in
  if contains "goal" user_message_ || contains "save" user_message_
  then
    Some (mk_Reasoning "set_goal"
            "I'd love to help you set a goal! What are you saving for? 🎯" [])
  else if contains "status" user_message_ || contains "progress" user_message_
  then
    let budget := budget_status context in
    if negb (String.eqb (bs_verdict budget) "NO_GOAL")
    then
      total_spent ← getitem_total_spent budget;
      budget_ ← getitem_budget budget;
      remaining ← getitem_remaining budget;
      Some (mk_Reasoning "check_status"
              ("You've spent ₹" +:+ Main.format_0f total_spent
               +:+ " out of ₹" +:+ Main.format_0f budget_ +:+ " "
               +:+ "this month. You have ₹" +:+ Main.format_0f remaining
               +:+ " left! 💰") [])
    else
      Some (mk_Reasoning "check_status"
              "You haven't set a goal yet. Want to create one? 🎯" [])
  else
    Some (mk_Reasoning "general_chat"
            "I'm here to help you with your financial goals! You can ask me about your spending, set goals, or check your progress. 😊"
            []).

(** The functions of [app/messaging/session_manager.py], which is not among
    the sources: the interface the agent is written against. *)
Class SessionManagerOps (SM St : Type) : Type := {
  get_history : SM -> string -> nat -> list ChatMessage;
  get_conversation_state : SM -> string -> St;
  add_to_history : SM -> string -> string -> string -> SM
}.

(** The chat-completion call: the messages sent, and the text of the first
    choice, or [None] for an exception raised by the call. *)
Definition LLM : Type := list ChatMessage -> option string.

(** An agent: [client] is [None] when no API key is configured. *)
Record MCPAgent : Type := mk_MCPAgent {
  agent_user_id : string;
  tools : AgentTools;
  client : option LLM
}.

Definition MCPAgent_init (db : Session) (uid : string) (client_ : option LLM)
    : Session * MCPAgent :=
  let '(db', tools_) := AgentTools_init db uid in
  (db', mk_MCPAgent uid tools_ client_).

Section Agent.

Context `{!StrCase} {SM St : Type} `{!SessionManagerOps SM St}.

(** [FINANCIAL_ADVISOR_SYSTEM_PROMPT] of [app/agents/prompts.py]. *)
Variable FINANCIAL_ADVISOR_SYSTEM_PROMPT : string.

Definition observe (self : MCPAgent) (sm : SM) (settings : Settings)
    (db : Session) (now : datetime) (user_message_ : string) : Context St :=
  let history_ := get_history sm (agent_user_id self) 5%nat in
  let goals_ := get_active_goals (tools self) db in
  let budget_status_ := check_budget_status settings (tools self) db now in
  let state := get_conversation_state sm (agent_user_id self) in
  mk_Context user_message_ history_ goals_ budget_status_ state.

Definition reason (self : MCPAgent) (context : Context St) : option Reasoning :=
  match client self with
  | None => _fallback_reasoning context
  | Some llm =>
      let messages := [mk_ChatMessage "system" FINANCIAL_ADVISOR_SYSTEM_PROMPT] in
      let messages :=
        (messages ++ List.map (fun msg => mk_ChatMessage (role msg) (content msg))
                              (history context))%list in
      context_str ← _format_context context;
      let messages :=
        (messages ++ [mk_ChatMessage "system"
                        ("Current context:" +:+ Main.nl +:+ context_str)])%list in
      let messages :=
        (messages ++ [mk_ChatMessage "user" (user_message context)])%list in
      match llm messages with
      | Some assistant_message =>
          let intent_ := _detect_intent (user_message context) assistant_message in
          Some (mk_Reasoning intent_ assistant_message [])
      | None => _fallback_reasoning context
      end
  end.

Definition act (self : MCPAgent) (sm : SM) (reasoning : Reasoning)
    (context : Context St) : SM * string :=
  let response_ := response reasoning in
  let sm := add_to_history sm (agent_user_id self) "user" (user_message context) in
  let sm := add_to_history sm (agent_user_id self) "assistant" response_ in
  (sm, response_).

(** [None] stands for an exception escaping [process_message]. *)
Definition process_message (self : MCPAgent) (sm : SM) (settings : Settings)
    (db : Session) (now : datetime) (user_message_ : string)
    : option (SM * string) :=
  let context := observe self sm settings db now user_message_ in
  reasoning ← reason self context;
  Some (act self sm reasoning context).

End Agent.

End Mcp.

(** ** Concrete states used in the examples *)

Module Examples.
Import Tools.

(** The case mapping of the examples, whose strings are ASCII. *)
#[local] Instance ascii_case : StrCase := {|
  str_upper := upper;
  str_lower := lower;
  str_upper_ascii := fun s _ => eq_refl;
  str_lower_ascii := fun s _ => eq_refl
|}.

(** 15 March 2025, noon; the first instant of that month; a day of February. *)
Definition now0 : datetime := Datetime.mk_datetime 2025 3 15 12 0 0 0.
Definition march1 : datetime := Datetime.mk_datetime 2025 3 1 0 0 0 0.
Definition feb20 : datetime := Datetime.mk_datetime 2025 2 20 18 0 0 0.

(** A first contact of user ["u1"] with an empty database. *)
Definition db_fresh : Session := fst (AgentTools_init empty_session "u1").
Definition tools0 : AgentTools := snd (AgentTools_init empty_session "u1").

(** Budget 5000, target 10000, two shopping purchases of 1000. *)
Definition db_goal : Session :=
  fst (set_saving_goal tools0 db_fresh now0 "Laptop" 10000 None (Some 5000%Q)).
Definition db_two_purchases : Session :=
  let db1 := fst (add_transaction tools0 db_goal now0 1000 "Shop A" "shopping") in
  fst (add_transaction tools0 db1 now0 1000 "Shop B" "Shopping").

(** Budget 5000, target 10000, 4000 spent before a purchase of 900. *)
Definition db_4900 : Session :=
  let db1 := fst (add_transaction tools0 db_goal march1 4000 "Mall" "shopping") in
  fst (add_transaction tools0 db1 now0 900 "Bistro" "food").

(** A goal with target 0 and budget 0, nothing spent. *)
Definition db_zero : Session :=
  fst (set_saving_goal tools0 db_fresh now0 "Nothing" 0 None (Some 0%Q)).

(** A goal with target 10000 and no budget configured, nothing spent. *)
Definition db_no_budget : Session :=
  fst (set_saving_goal tools0 db_fresh now0 "Laptop" 10000 None None).

(** A goal with target 10000 and a budget of exactly 0, and one purchase. *)
Definition db_zero_budget_spent : Session :=
  let db1 :=
    fst (set_saving_goal tools0 db_fresh now0 "Laptop" 10000 None (Some 0%Q)) in
  fst (add_transaction tools0 db1 now0 100 "Kiosk" "food").

(** The goal stored by the first [set_saving_goal] of the examples. *)
Definition laptop_goal (budget : option Q) : Goal :=
  mk_Goal 1 1 "Laptop" 10000 None budget ACTIVE 0.

(** A configuration with the threshold lowered to a quarter. *)
Definition quarter_settings : Settings := mk_Settings (1 # 4).

(** Purchases in several categories, one of them essential, one stamped in
    February. *)
Definition db_mixed : Session :=
  let db1 := fst (add_transaction tools0 db_goal feb20 700 "Old shop" "shopping") in
  let db2 := fst (add_transaction tools0 db1 march1 300 "Cafe" "FOOD") in
  let db3 := fst (add_transaction tools0 db2 now0 120 "Metro" "transport") in
  fst (add_transaction tools0 db3 now0 80 "Bakery" "food").

(** A second user joins the session of the 4900 example. *)
Definition db_two_users : Session := fst (AgentTools_init db_4900 "u2").
Definition tools_u2 : AgentTools := snd (AgentTools_init db_4900 "u2").

(** Modelled from the spec: the in-memory storage of [app/storage.py], which
    is not among the sources; users keyed by identifier, each with the list
    of their transactions, a transaction being stamped on creation.  It only
    instantiates the storage interface in the examples. *)
Record MemStorage : Type := mk_MemStorage {
  USERS : gmap string Main.user_dict;
  TRANSACTIONS : gmap string (list Main.tx_dict)
}.

#[global] Instance MemStorage_ops : Main.StorageOps MemStorage := {|
  Main.get_user st uid := USERS st !! uid;
  Main.add_transaction st now uid amount_ merchant_ category_ :=
    let tx := Main.mk_tx amount_ merchant_ category_ now in
    (mk_MemStorage (USERS st)
       (<[uid := (default [] (TRANSACTIONS st !! uid) ++ [tx])%list]> (TRANSACTIONS st)),
     tx);
  Main.get_user_transactions st uid := default [] (TRANSACTIONS st !! uid)
|}.

(** A rendering of amounts that is exact on whole numbers. *)
Definition whole_float_str : Main.FloatStr :=
  {| Main.str_float q := pretty (Main.round_half_even q) +:+ ".0" |}.

(** User ["u1"] with saving goal 10000 and budget 5000, having already spent
    5500 on shopping this month. *)
Definition st_over : MemStorage :=
  mk_MemStorage {[ "u1" := Main.mk_user 10000 5000 ]}
                {[ "u1" := [Main.mk_tx 5500 "Mall" "shopping" march1] ]}.

Definition body_500 : Main.AddTransactionRequest :=
  Main.mk_AddTransactionRequest "u1" 500 "Bookshop" "shopping".

(** Budget 5000, target 10000, 6000 spent: scenario 3 in the database. *)
Definition db_over : Session :=
  fst (add_transaction tools0 db_goal march1 6000 "Mall" "shopping").

(** A session manager that keeps one list of messages per user and no
    conversation state; it only instantiates the session-manager interface
    in the examples. *)
#[global] Instance log_session_manager
    : Mcp.SessionManagerOps (gmap string (list Mcp.ChatMessage)) unit := {|
  Mcp.get_history sm uid limit :=
    let h := default [] (sm !! uid) in drop (length h - limit) h;
  Mcp.get_conversation_state sm uid := tt;
  Mcp.add_to_history sm uid role_ content_ :=
    <[uid := (default [] (sm !! uid) ++ [Mcp.mk_ChatMessage role_ content_])%list]> sm
|}.

(** An agent for user ["u1"] without a language-model client. *)
Definition agent0 : Mcp.MCPAgent := Mcp.mk_MCPAgent "u1" tools0 None.

End Examples.


(** ** The properties, in the words of the specification *)

Module Spec.
Import Tools.

Local Open Scope Q_scope.

(** *** Verdict tiers *)

(** The tier policy: GREEN from the comfort bound upwards, ORANGE from zero
    up to the bound, RED below zero. *)
Definition tier_of (remaining bound : Q) : string :=
  if Qle_bool bound remaining then "GREEN"
  else if Qle_bool 0 remaining then "ORANGE"
  else "RED".

(** The label that [check_budget_status] pairs with a tier. *)
Definition status_label (remaining bound : Q) : string :=
  if Qle_bool bound remaining then "on track"
  else if Qle_bool 0 remaining then "borderline"
  else "over budget".

(** The three equivalences of the tier policy. *)
Definition tiers_iff (v : string) (remaining bound : Q) : Prop :=
  (v = "GREEN"%string <-> bound <= remaining) /\
  (v = "ORANGE"%string <-> 0 <= remaining /\ remaining < bound) /\
  (v = "RED"%string <-> remaining < 0).

(** The policy with its two boundary cases, as the specification words them. *)
Definition tiers_as_stated (v : string) (remaining bound : Q) : Prop :=
  tiers_iff v remaining bound /\
  (remaining == bound -> v = "GREEN"%string) /\
  (remaining == 0 -> v = "ORANGE"%string).

(** The boundary at zero holds when the comfort bound is positive; with a
    zero bound the two boundaries coincide and GREEN wins. *)
Definition tiers_amended (v : string) (remaining bound : Q) : Prop :=
  tiers_iff v remaining bound /\
  (remaining == bound -> v = "GREEN"%string) /\
  (remaining == 0 -> 0 < bound -> v = "ORANGE"%string) /\
  (remaining == 0 -> bound == 0 -> v = "GREEN"%string).

(** The verdict of the retrospective evaluation on a state. *)
Definition status_verdict (settings : Settings) (self : AgentTools)
    (db : Session) (now : datetime) : string :=
  bs_verdict (check_budget_status settings self db now).

(** The month's non-essential total the evaluation works with. *)
Definition total_spent_of (self : AgentTools) (db : Session) (now : datetime) : Q :=
  sa_total_nonessential (analyze_spending_pattern self db now).

(** The verdict of the prospective evaluation. *)
Definition purchase_verdict (user : Main.user_dict) (tx : Main.tx_dict)
    (before : Q) : string :=
  fst (fst (Main.evaluate_purchase user tx before)).

Definition status_tiers_as_stated (settings : Settings) (self : AgentTools)
    (db : Session) (now : datetime) : Prop :=
  forall g, head (active_goals_query self db) = Some g ->
    let budget := float_or_0 (month_nonessential_budget g) in
    0 <= total_spent_of self db now -> 0 <= budget -> 0 <= target_amount g ->
    tiers_as_stated (status_verdict settings self db now)
                    (budget - total_spent_of self db now)
                    (target_amount g * comfort_zone_threshold settings).

(** Prospective and retrospective evaluation of the same budget, target and
    total agree. *)
Definition forms_agree_as_stated (settings : Settings) (self : AgentTools)
    (db : Session) (now : datetime) : Prop :=
  forall g user tx before,
    head (active_goals_query self db) = Some g ->
    month_nonessential_budget g = Some (Main.month_nonessential_budget user) ->
    target_amount g = Main.month_saving_goal user ->
    total_spent_of self db now == before + Main.amount tx ->
    purchase_verdict user tx before = status_verdict settings self db now.

(** NO_GOAL exactly when the goal or its budget is absent. *)
Definition no_goal_as_stated (settings : Settings) (self : AgentTools)
    (db : Session) (now : datetime) : Prop :=
  status_verdict settings self db now = "NO_GOAL"%string <->
  (head (active_goals_query self db) = None \/
   exists g, head (active_goals_query self db) = Some g
             /\ month_nonessential_budget g = None).

(** *** The monthly window *)

(** At or after the first instant of the month of [now], strictly before the
    first instant of the next month. *)
Definition in_calendar_month (ts now : datetime) : bool :=
  Datetime.geb ts (Datetime.month_start now)
  && Datetime.ltb ts (Datetime.next_month_start now).

Definition window_as_stated (self : AgentTools) (db : Session) (now : datetime)
    : Prop :=
  forall t, In t (month_transactions self db now) <->
            In t (transactions db)
            /\ tx_user_id t = user_pk (user self)
            /\ in_calendar_month (timestamp t) now = true.

(** The rows of the user stamped in the calendar month of [now], in table
    order. *)
Definition calendar_month_rows (self : AgentTools) (db : Session) (now : datetime)
    : list Transaction :=
  List.filter
    (fun t => (tx_user_id t =? user_pk (user self))
              && in_calendar_month (timestamp t) now)
    (transactions db).

(** The condition of the loop in [calc_month_nonessential_spend]. *)
Definition counted_by_calc (now : datetime) (tx : Main.tx_dict) : bool :=
  Datetime.geb (Main.timestamp tx) (Datetime.month_start now)
  && existsb (String.eqb (Main.category tx)) ["shopping"; "food"; "entertainment"]%string.

(** *** Aggregation *)

(** The sum of the amounts, accumulated from [0.0] in list order. *)
Definition sum_amounts (l : list Transaction) : Q :=
  fold_left Qplus (List.map amount l) 0.

Definition is_nonessential (c : TransactionCategory) : bool :=
  match c with
  | SHOPPING | FOOD | ENTERTAINMENT => true
  | _ => false
  end.

Definition with_category_value (k : string) (l : list Transaction)
    : list Transaction :=
  List.filter (fun t => String.eqb (category_value (category t)) k) l.

(** *** Mutators *)

(** A negative amount is rejected and the session is left as it was. *)
Definition rejects_negative_as_stated `{!StrCase} (self : AgentTools) (db : Session)
    (now : datetime) (amount_ : Q) (merchant_ category_ : string) : Prop :=
  amount_ < 0 -> fst (add_transaction self db now amount_ merchant_ category_) = db.

(** The arguments of one [set_saving_goal] call. *)
Record GoalRequest : Type := mk_GoalRequest {
  gr_now : datetime;
  gr_title : string;
  gr_target_amount : Q;
  gr_deadline_days : option Z;
  gr_budget : option Q
}.

Definition set_goal (self : AgentTools) (db : Session) (r : GoalRequest) : Session :=
  fst (set_saving_goal self db (gr_now r) (gr_title r) (gr_target_amount r)
                       (gr_deadline_days r) (gr_budget r)).

(** A sequence of [set_saving_goal] calls. *)
Definition set_goals (self : AgentTools) (db : Session) (rs : list GoalRequest)
    : Session :=
  fold_left (set_goal self) rs db.

(** The goal a [set_saving_goal] call stores. *)
Definition stored_goal (self : AgentTools) (db : Session) (r : GoalRequest) : Goal :=
  mk_Goal (next_pk (goals db)) (user_pk (user self)) (gr_title r)
          (gr_target_amount r)
          (if truthy_int (gr_deadline_days r)
           then Some (Datetime.add_days (gr_now r) (default 0%Z (gr_deadline_days r)))
           else None)
          (gr_budget r) ACTIVE 0.

(** A second goal for the user of the examples. *)
Definition phone_request : GoalRequest :=
  mk_GoalRequest Examples.now0 "Phone" 20000 (Some 30%Z) (Some 3000).

(** After a set-goal the user's only active goal is the one just set. *)
Definition single_active_goal_as_stated (self : AgentTools) (db : Session)
    (r : GoalRequest) : Prop :=
  get_active_goals self (set_goal self db r) = [goal_info (stored_goal self db r)].

(** *** The two read paths on a zero budget *)

Definition zero_budget_as_stated (settings : Settings) (self : AgentTools)
    (db : Session) (now : datetime) : Prop :=
  forall g b, head (active_goals_query self db) = Some g ->
    month_nonessential_budget g = Some b -> b == 0 ->
    sa_remaining_budget (analyze_spending_pattern self db now) = None /\
    (status_verdict settings self db now = "RED"%string \/
     status_verdict settings self db now = "ORANGE"%string).

(** *** Text *)

(** [sub] occurs in [s]. *)
Definition occurs_in (sub s : string) : Prop :=
  exists pre post, s = pre +:+ sub +:+ post.

End Spec.

(** ** Further behaviour of the operations *)

Module Behaviour.
Import Tools.

(** The category under which [add_transaction] stores a category string. *)
Definition stored_category `{!StrCase} (category_ : string) : TransactionCategory :=
  match category_getitem (str_upper category_) with
  | Some c => c
  | None => OTHER
  end.

(** The row [add_transaction] appends. *)
Definition stored_transaction `{!StrCase} (self : AgentTools) (db : Session)
    (now : datetime) (amount_ : Q) (merchant_ category_ : string) : Transaction :=
  mk_Transaction (next_pk (transactions db)) (user_pk (user self))
                 amount_ merchant_ (stored_category category_) now.

(** The session after [add_transaction]. *)
Definition record_tx `{!StrCase} (self : AgentTools) (db : Session)
    (now : datetime) (amount_ : Q) (merchant_ category_ : string) : Session :=
  fst (add_transaction self db now amount_ merchant_ category_).

(** GREEN above ORANGE above RED. *)
Definition tier_rank (v : string) : nat :=
  if String.eqb v "GREEN" then 2
  else if String.eqb v "ORANGE" then 1
  else 0.

(** The sessions the tools can produce from the empty database: a first
    contact creates the user, and goals and transactions are written by tools
    whose user is in the session. *)
Inductive reachable `{!StrCase} : Session -> Prop :=
| reach_empty : reachable empty_session
| reach_user db uid :
    reachable db -> reachable (fst (AgentTools_init db uid))
| reach_goal db self r :
    reachable db -> In (user self) (users db) ->
    reachable (Spec.set_goal self db r)
| reach_tx db self now amount_ merchant_ category_ :
    reachable db -> In (user self) (users db) ->
    reachable (record_tx self db now amount_ merchant_ category_).

(** The sessions the tools produce while the clock, which never goes back,
    runs up to [c]: [add_transaction] stamps its row with the instant of the
    call, a valid datetime read from the clock.  Creating a user and setting
    a goal write no transaction (the instant of a [set_saving_goal] call only
    enters the deadline of the goal). *)
Inductive produced_until `{!StrCase} : Session -> datetime -> Prop :=
| produced_empty c : produced_until empty_session c
| produced_later db c c' :
    produced_until db c -> Datetime.leb c c' = true -> produced_until db c'
| produced_user db c uid :
    produced_until db c -> produced_until (fst (AgentTools_init db uid)) c
| produced_goal db c self r :
    produced_until db c -> produced_until (Spec.set_goal self db r) c
| produced_tx db c self amount_ merchant_ category_ :
    produced_until db c -> Datetime.valid c = true ->
    produced_until (record_tx self db c amount_ merchant_ category_) c.

(** The keys of a table are 1, 2, ... in insertion order. *)
Definition keyed_in_order {A : Type} (pk : A -> Z) (table : list A) : Prop :=
  forall (i : nat) (x : A), table !! i = Some x -> pk x = Z.of_nat i + 1.

Record consistent (db : Session) : Prop := mk_consistent {
  users_keyed : keyed_in_order user_pk (users db);
  goals_keyed : keyed_in_order goal_pk (goals db);
  transactions_keyed : keyed_in_order transaction_pk (transactions db);
  telegram_ids_unique : NoDup (List.map telegram_id (users db));
  goals_untouched :
    forall g, In g (goals db) -> status g = ACTIVE /\ current_amount g = 0%Q;
  goals_owned :
    forall g, In g (goals db) ->
      exists u, In u (users db) /\ user_pk u = goal_user_id g;
  transactions_owned :
    forall t, In t (transactions db) ->
      exists u, In u (users db) /\ user_pk u = tx_user_id t
}.

(** [a >= b] on datetimes, field by field. *)
Definition dt_ge (a b : datetime) : Prop :=
  Datetime.year b < Datetime.year a \/
  (Datetime.year a = Datetime.year b /\
   (Datetime.month b < Datetime.month a \/
    (Datetime.month a = Datetime.month b /\
     (Datetime.day b < Datetime.day a \/
      (Datetime.day a = Datetime.day b /\
       (Datetime.hour b < Datetime.hour a \/
        (Datetime.hour a = Datetime.hour b /\
         (Datetime.minute b < Datetime.minute a \/
          (Datetime.minute a = Datetime.minute b /\
           (Datetime.second b < Datetime.second a \/
            (Datetime.second a = Datetime.second b /\
             Datetime.microsecond b <= Datetime.microsecond a))))))))))).

(** The rows [fetch_recent_transactions] selects, in table order. *)
Definition recent_rows (self : AgentTools) (db : Session) (now : datetime)
    (days : Z) : list Transaction :=
  List.filter
    (fun t => (tx_user_id t =? user_pk (user self))
              && Datetime.geb (timestamp t) (Datetime.add_days now (- days)))
    (transactions db).

(** Rows from the latest to the earliest. *)
Definition rows_latest_first (a b : Transaction) : Prop :=
  Datetime.geb (timestamp a) (timestamp b) = true.

(** From the latest to the earliest. *)
Definition latest_first (a b : TransactionInfo) : Prop :=
  Datetime.geb (ti_timestamp a) (ti_timestamp b) = true.

(** The keywords of [_detect_intent], by intent. *)
Definition goal_words : list string := ["goal"; "save"; "want to buy"; "planning"].
Definition status_words : list string := ["status"; "how am i"; "progress"; "doing"].
Definition spending_words : list string :=
  ["spent"; "spending"; "budget"; "transactions"].

(** The budget section of [_format_context] for a status with all its keys. *)
Definition budget_section (verdict label : string) (total_spent budget remaining : Q)
    : string :=
  Main.nl +:+ "Budget Status: " +:+ verdict
  +:+ " (" +:+ label +:+ ")" +:+ Main.nl
  +:+ "Spent: ₹" +:+ Main.format_0f total_spent
  +:+ " / ₹" +:+ Main.format_0f budget +:+ Main.nl
  +:+ "Remaining: ₹" +:+ Main.format_0f remaining.

(** The status reply of [_fallback_reasoning]. *)
Definition status_reply (total_spent budget remaining : Q) : string :=
  "You've spent ₹" +:+ Main.format_0f total_spent
  +:+ " out of ₹" +:+ Main.format_0f budget +:+ " "
  +:+ "this month. You have ₹" +:+ Main.format_0f remaining
  +:+ " left! 💰".

End Behaviour.

(** ** Proofs: the verdict tiers *)

Section TierFacts.

Import Spec.
Local Open Scope Q_scope.

Lemma Qle_bool_false (x y : Q) : Qle_bool x y = false <-> y < x.
Proof.
  split; intros H.
  - apply Qnot_le_lt. intros Hle. apply Qle_bool_iff in Hle. congruence.
  - destruct (Qle_bool x y) eqn:E; [|reflexivity].
    apply Qle_bool_iff in E. lra.
Qed.

Lemma tier_of_cases (remaining bound : Q) :
  (bound <= remaining /\ tier_of remaining bound = "GREEN"%string) \/
  (remaining < bound /\ 0 <= remaining /\ tier_of remaining bound = "ORANGE"%string) \/
  (remaining < bound /\ remaining < 0 /\ tier_of remaining bound = "RED"%string).
Proof.
  unfold tier_of.
  destruct (Qle_bool bound remaining) eqn:E1.
  - left. apply Qle_bool_iff in E1. auto.
  - apply Qle_bool_false in E1.
    destruct (Qle_bool 0 remaining) eqn:E2.
    + right; left. apply Qle_bool_iff in E2. auto.
    + right; right. apply Qle_bool_false in E2. auto.
Qed.

Lemma tier_of_iff (remaining bound : Q) :
  0 <= bound -> tiers_iff (tier_of remaining bound) remaining bound.
Proof.
  intros Hb. unfold tiers_iff.
  destruct (tier_of_cases remaining bound)
    as [[H1 ->] | [(H1 & H2 & ->) | (H1 & H2 & ->)]];
    (repeat split; intros; try discriminate; try lra).
Qed.

Lemma tier_of_amended (remaining bound : Q) :
  0 <= bound -> tiers_amended (tier_of remaining bound) remaining bound.
Proof.
  intros Hb. split; [now apply tier_of_iff|].
  destruct (tier_of_cases remaining bound)
    as [[H1 ->] | [(H1 & H2 & ->) | (H1 & H2 & ->)]];
    (repeat split; intros; try reflexivity; try lra).
Qed.

Lemma tier_of_compat (r1 r2 b1 b2 : Q) :
  r1 == r2 -> b1 == b2 -> tier_of r1 b1 = tier_of r2 b2.
Proof.
  intros Hr Hb.
  destruct (tier_of_cases r1 b1) as [[H1 ->] | [(H1 & H2 & ->) | (H1 & H2 & ->)]];
  destruct (tier_of_cases r2 b2) as [[G1 ->] | [(G1 & G2 & ->) | (G1 & G2 & ->)]];
    try reflexivity; lra.
Qed.

Lemma tier_of_not_no_goal (remaining bound : Q) :
  tier_of remaining bound <> "NO_GOAL"%string.
Proof.
  unfold tier_of.
  destruct (Qle_bool bound remaining); [discriminate|].
  destruct (Qle_bool 0 remaining); discriminate.
Qed.

(** The result of the retrospective evaluation when a goal is active. *)
Lemma check_budget_status_active settings self db now g :
  head (Tools.active_goals_query self db) = Some g ->
  let total := total_spent_of self db now in
  let budget := float_or_0 (Tools.month_nonessential_budget g) in
  let bound := Tools.target_amount g * Tools.comfort_zone_threshold settings in
  Tools.check_budget_status settings self db now =
  Tools.StatusVerdict (tier_of (budget - total) bound)
                      (status_label (budget - total) bound)
                      total budget (budget - total)
                      (Tools.target_amount g) (Tools.title g).
Proof.
  intros Hg. unfold Tools.check_budget_status. rewrite Hg.
  unfold tier_of, status_label, Qge_bool, total_spent_of. cbv zeta.
  destruct (Qle_bool _ _); [reflexivity|].
  destruct (Qle_bool _ _); reflexivity.
Qed.

Lemma status_verdict_active settings self db now g :
  head (Tools.active_goals_query self db) = Some g ->
  status_verdict settings self db now =
  tier_of (float_or_0 (Tools.month_nonessential_budget g) - total_spent_of self db now)
          (Tools.target_amount g * Tools.comfort_zone_threshold settings).
Proof.
  intros Hg. unfold status_verdict.
  rewrite (check_budget_status_active settings self db now g Hg). reflexivity.
Qed.

Lemma status_verdict_inactive settings self db now :
  head (Tools.active_goals_query self db) = None ->
  Tools.check_budget_status settings self db now =
  Tools.StatusNoGoal "NO_GOAL" "No active goal set".
Proof.
  intros Hg. unfold Tools.check_budget_status. rewrite Hg. reflexivity.
Qed.

(** The result of the prospective evaluation. *)
Lemma evaluate_purchase_spec user tx before :
  let remaining_after :=
    Main.month_nonessential_budget user - before - Main.amount tx in
  purchase_verdict user tx before =
    tier_of remaining_after (Main.month_saving_goal user * (1 # 2))
  /\ snd (Main.evaluate_purchase user tx before) = remaining_after.
Proof.
  unfold purchase_verdict, Main.evaluate_purchase, tier_of, Qge_bool. cbv zeta.
  destruct (Qle_bool _ _); [split; reflexivity|].
  destruct (Qle_bool _ _); split; reflexivity.
Qed.

Lemma float_or_0_eq (b : Q) : float_or_0 (Some b) == b.
Proof.
  unfold float_or_0, truthy_float.
  destruct (Qeq_bool b 0) eqn:E; simpl; [|reflexivity].
  apply Qeq_bool_iff in E. symmetry. exact E.
Qed.

Lemma float_or_0_zero (b : Q) : b == 0 -> float_or_0 (Some b) = 0.
Proof.
  intros Hb. unfold float_or_0, truthy_float.
  apply Qeq_bool_iff in Hb. rewrite Hb. reflexivity.
Qed.

End TierFacts.

(** ** Proofs: the verdict engine *)

Section VerdictEngine.

Import Spec.
Local Open Scope Q_scope.

(** C1 (amended).  For a non-negative saving-goal target and a non-negative
    threshold, the tier is GREEN iff [remaining >= target * threshold], ORANGE
    iff [0 <= remaining < target * threshold], RED iff [remaining < 0], where
    [remaining] is the value the function itself computes:
    [budget - total_spent] in [check_budget_status] (configured threshold),
    and [remaining_after = (budget - spent before) - amount] in
    [evaluate_purchase] (threshold 0.5).  [remaining] equal to the bound
    yields GREEN; [remaining] equal to 0 yields ORANGE when the bound is
    positive and GREEN when the bound is 0. *)
Theorem verdict_tiers settings self db now g user tx before :
  0 <= Tools.comfort_zone_threshold settings ->
  head (Tools.active_goals_query self db) = Some g ->
  0 <= Tools.target_amount g ->
  0 <= Main.month_saving_goal user ->
  tiers_amended (status_verdict settings self db now)
    (float_or_0 (Tools.month_nonessential_budget g) - total_spent_of self db now)
    (Tools.target_amount g * Tools.comfort_zone_threshold settings)
  /\
  tiers_amended (purchase_verdict user tx before)
    (Main.month_nonessential_budget user - before - Main.amount tx)
    (Main.month_saving_goal user * (1 # 2))
  /\
  snd (Main.evaluate_purchase user tx before)
  = Main.month_nonessential_budget user - before - Main.amount tx.
Proof.
  intros Hthr Hg Htarget Hgoal. split; [|split].
  - rewrite (status_verdict_active settings self db now g Hg).
    apply tier_of_amended. nra.
  - destruct (evaluate_purchase_spec user tx before) as [-> _].
    apply tier_of_amended. lra.
  - exact (proj2 (evaluate_purchase_spec user tx before)).
Qed.

(** C1 as stated fails: with target 0, budget 0 and nothing spent,
    [remaining] is exactly 0 and the verdict is GREEN, not ORANGE. *)
Lemma verdict_tiers_zero_target_green :
  ~ status_tiers_as_stated Tools.default_settings Examples.tools0
      Examples.db_zero Examples.now0.
Proof.
  intros H.
  specialize (H (Tools.mk_Goal 1 1 "Nothing" 0 None (Some 0) Tools.ACTIVE 0) eq_refl).
  cbv zeta in H.
  assert (Hv : status_verdict Tools.default_settings Examples.tools0
                 Examples.db_zero Examples.now0 = "GREEN"%string)
    by (vm_compute; reflexivity).
  rewrite Hv in H.
  destruct H as (_ & _ & Hzero); try (vm_compute; discriminate).
  assert (Habs : "GREEN"%string = "ORANGE"%string)
    by (apply Hzero; vm_compute; reflexivity).
  discriminate Habs.
Qed.

(** C2 (amended).  The two evaluation forms apply one tier rule, each to the
    remaining budget and the comfort bound it computes itself:
    [evaluate_purchase] to [remaining_after = (budget - T) - a] and
    [target * 0.5], [check_budget_status] to [remaining = budget - total] and
    [target * comfort_zone_threshold].  They give the same tier whenever the
    two remaining values are equal and the two bounds are equal. *)
Theorem forms_share_tier_rule settings self db now g user tx before :
  head (Tools.active_goals_query self db) = Some g ->
  let remaining_after :=
    Main.month_nonessential_budget user - before - Main.amount tx in
  let remaining :=
    float_or_0 (Tools.month_nonessential_budget g) - total_spent_of self db now in
  let bound_purchase := Main.month_saving_goal user * (1 # 2) in
  let bound_status := Tools.target_amount g * Tools.comfort_zone_threshold settings in
  purchase_verdict user tx before = tier_of remaining_after bound_purchase
  /\ snd (Main.evaluate_purchase user tx before) = remaining_after
  /\ status_verdict settings self db now = tier_of remaining bound_status
  /\ Tools.bs_remaining (Tools.check_budget_status settings self db now)
     = Some remaining
  /\ (remaining_after == remaining -> bound_purchase == bound_status ->
      purchase_verdict user tx before = status_verdict settings self db now).
Proof.
  intros Hg. cbv zeta.
  destruct (evaluate_purchase_spec user tx before) as [Hv Hr]. cbv zeta in Hv, Hr.
  pose proof (status_verdict_active settings self db now g Hg) as Hs.
  repeat split; try assumption.
  - rewrite (check_budget_status_active settings self db now g Hg). reflexivity.
  - intros Hrem Hbound. rewrite Hv, Hs. now apply tier_of_compat.
Qed.

(** C2 as stated fails: with the threshold configured to 0.25, budget 5000,
    target 10000 and a total of 1000 + 1000, the retrospective evaluation is
    GREEN while the prospective one, which keeps 0.5, is ORANGE. *)
Lemma forms_disagree_off_default_threshold :
  ~ forms_agree_as_stated Examples.quarter_settings Examples.tools0
      Examples.db_two_purchases Examples.now0.
Proof.
  intros H.
  specialize (H (Examples.laptop_goal (Some 5000))
                (Main.mk_user 10000 5000)
                (Main.mk_tx 1000 "Shop B" "shopping" Examples.now0)
                1000 eq_refl eq_refl eq_refl).
  assert (Ht : total_spent_of Examples.tools0 Examples.db_two_purchases Examples.now0
               == 1000 + Main.amount (Main.mk_tx 1000 "Shop B" "shopping" Examples.now0))
    by (vm_compute; reflexivity).
  specialize (H Ht). vm_compute in H. discriminate H.
Qed.

(** C3 (amended).  The status evaluation returns NO_GOAL iff the user has no
    active goal, and the result then carries the sentinel and a message only,
    no amount.  An active goal without a configured budget is evaluated
    with budget 0: the result carries [remaining = 0 - total_spent] and one of
    the tiers GREEN, ORANGE, RED. *)
Theorem no_goal_iff_no_active_goal settings self db now :
  (status_verdict settings self db now = "NO_GOAL"%string
   <-> head (Tools.active_goals_query self db) = None)
  /\
  (head (Tools.active_goals_query self db) = None ->
   Tools.check_budget_status settings self db now
   = Tools.StatusNoGoal "NO_GOAL" "No active goal set")
  /\
  (forall g, head (Tools.active_goals_query self db) = Some g ->
     Tools.month_nonessential_budget g = None ->
     let total := total_spent_of self db now in
     let bound := Tools.target_amount g * Tools.comfort_zone_threshold settings in
     Tools.check_budget_status settings self db now =
       Tools.StatusVerdict (tier_of (0 - total) bound) (status_label (0 - total) bound)
                           total 0 (0 - total) (Tools.target_amount g) (Tools.title g)
     /\ In (status_verdict settings self db now) ["GREEN"; "ORANGE"; "RED"]%string).
Proof.
  split.
  - destruct (head (Tools.active_goals_query self db)) as [g|] eqn:Hg.
    + rewrite (status_verdict_active settings self db now g Hg).
      split; [|discriminate].
      intros Habs. now apply tier_of_not_no_goal in Habs.
    + unfold status_verdict. rewrite (status_verdict_inactive _ _ _ _ Hg).
      split; reflexivity.
  - split; [apply status_verdict_inactive|].
    intros g Hg Hb. cbv zeta.
    rewrite (status_verdict_active settings self db now g Hg).
    rewrite (check_budget_status_active settings self db now g Hg).
    rewrite Hb. cbn [float_or_0]. split; [reflexivity|].
    destruct (tier_of_cases (0 - total_spent_of self db now)
                (Tools.target_amount g * Tools.comfort_zone_threshold settings))
      as [[_ ->] | [(_ & _ & ->) | (_ & _ & ->)]]; simpl; auto.
Qed.

(** C3 as stated fails: an active goal with target 10000 and no budget gets
    the tier ORANGE, not NO_GOAL. *)
Lemma missing_budget_is_not_no_goal :
  ~ no_goal_as_stated Tools.default_settings Examples.tools0
      Examples.db_no_budget Examples.now0.
Proof.
  intros [_ H].
  assert (Habs : status_verdict Tools.default_settings Examples.tools0
                   Examples.db_no_budget Examples.now0 = "NO_GOAL"%string).
  { apply H. right. exists (Examples.laptop_goal None). split; reflexivity. }
  vm_compute in Habs. discriminate Habs.
Qed.

(** C10 (amended).  With an active goal whose budget is exactly 0, the
    spending analysis reports the budget and no [remaining_budget], as it
    does without a budget, while the status evaluation computes
    [remaining = 0 - total_spent] and a tier that is never NO_GOAL; the tier
    is RED or ORANGE exactly when [0 - total_spent < target * threshold], in
    particular whenever the bound is positive and nothing negative was
    spent. *)
Theorem zero_budget_read_paths settings self db now g b :
  head (Tools.active_goals_query self db) = Some g ->
  Tools.month_nonessential_budget g = Some b ->
  b == 0 ->
  let total := total_spent_of self db now in
  let bound := Tools.target_amount g * Tools.comfort_zone_threshold settings in
  let v := status_verdict settings self db now in
  Tools.sa_month_nonessential_budget (Tools.analyze_spending_pattern self db now) = Some b
  /\ Tools.sa_remaining_budget (Tools.analyze_spending_pattern self db now) = None
  /\ Tools.check_budget_status settings self db now =
       Tools.StatusVerdict v (status_label (0 - total) bound)
                           total 0 (0 - total) (Tools.target_amount g) (Tools.title g)
  /\ v <> "NO_GOAL"%string
  /\ ((v = "RED"%string \/ v = "ORANGE"%string) <-> 0 - total < bound)
  /\ (0 < bound -> 0 <= total -> v = "RED"%string \/ v = "ORANGE"%string).
Proof.
  intros Hg Hb Hz. cbv zeta.
  rewrite (status_verdict_active settings self db now g Hg).
  rewrite (check_budget_status_active settings self db now g Hg).
  rewrite Hb, (float_or_0_zero b Hz).
  assert (Hcases :
    (tier_of (0 - total_spent_of self db now)
       (Tools.target_amount g * Tools.comfort_zone_threshold settings) = "RED"%string
     \/ tier_of (0 - total_spent_of self db now)
       (Tools.target_amount g * Tools.comfort_zone_threshold settings) = "ORANGE"%string)
    <-> 0 - total_spent_of self db now
        < Tools.target_amount g * Tools.comfort_zone_threshold settings).
  { destruct (tier_of_cases (0 - total_spent_of self db now)
                (Tools.target_amount g * Tools.comfort_zone_threshold settings))
      as [[H1 ->] | [(H1 & H2 & ->) | (H1 & H2 & ->)]].
    - split; [intros [?|?]; discriminate | lra].
    - split; auto.
    - split; auto. }
  repeat split.
  - unfold Tools.analyze_spending_pattern. cbn. rewrite Hg. exact Hb.
  - unfold Tools.analyze_spending_pattern. cbn. rewrite Hg, Hb.
    unfold truthy_float. apply Qeq_bool_iff in Hz. rewrite Hz. reflexivity.
  - apply tier_of_not_no_goal.
  - apply Hcases.
  - apply Hcases.
  - intros Hpos Htot. apply Hcases. lra.
Qed.

(** C10 as stated fails: with budget 0, target 0 and nothing spent the
    status evaluation is GREEN, neither RED nor ORANGE. *)
Lemma zero_budget_zero_target_green :
  ~ zero_budget_as_stated Tools.default_settings Examples.tools0
      Examples.db_zero Examples.now0.
Proof.
  intros H.
  destruct (H (Tools.mk_Goal 1 1 "Nothing" 0 None (Some 0) Tools.ACTIVE 0) 0
              eq_refl eq_refl (Qeq_refl 0)) as [_ [Habs | Habs]];
    vm_compute in Habs; discriminate Habs.
Qed.

(** Scenario 5: 4000 spent, a purchase of 900, budget 5000, target 10000. *)
Lemma verdict_tiers_witness :
  0 <= Tools.comfort_zone_threshold Tools.default_settings /\
  head (Tools.active_goals_query Examples.tools0 Examples.db_4900)
    = Some (Examples.laptop_goal (Some 5000)) /\
  0 <= Tools.target_amount (Examples.laptop_goal (Some 5000)) /\
  0 <= Main.month_saving_goal (Main.mk_user 10000 5000) /\
  (tiers_amended
     (status_verdict Tools.default_settings Examples.tools0 Examples.db_4900
                     Examples.now0)
     (float_or_0 (Tools.month_nonessential_budget (Examples.laptop_goal (Some 5000)))
      - total_spent_of Examples.tools0 Examples.db_4900 Examples.now0)
     (Tools.target_amount (Examples.laptop_goal (Some 5000))
      * Tools.comfort_zone_threshold Tools.default_settings)
   /\
   tiers_amended
     (purchase_verdict (Main.mk_user 10000 5000)
        (Main.mk_tx 900 "Bistro" "food" Examples.now0) 4000)
     (Main.month_nonessential_budget (Main.mk_user 10000 5000)
      - 4000 - Main.amount (Main.mk_tx 900 "Bistro" "food" Examples.now0))
     (Main.month_saving_goal (Main.mk_user 10000 5000) * (1 # 2))).
Proof.
  assert (H1 : 0 <= Tools.comfort_zone_threshold Tools.default_settings)
    by (vm_compute; discriminate).
  assert (H2 : head (Tools.active_goals_query Examples.tools0 Examples.db_4900)
               = Some (Examples.laptop_goal (Some 5000))) by reflexivity.
  assert (H3 : 0 <= Tools.target_amount (Examples.laptop_goal (Some 5000)))
    by (vm_compute; discriminate).
  assert (H4 : 0 <= Main.month_saving_goal (Main.mk_user 10000 5000))
    by (vm_compute; discriminate).
  repeat (split; [assumption|]).
  pose proof (verdict_tiers Tools.default_settings Examples.tools0 Examples.db_4900
                Examples.now0 (Examples.laptop_goal (Some 5000))
                (Main.mk_user 10000 5000)
                (Main.mk_tx 900 "Bistro" "food" Examples.now0) 4000 H1 H2 H3 H4)
    as (K1 & K2 & _).
  split; assumption.
Defined.

Lemma forms_share_tier_rule_witness :
  head (Tools.active_goals_query Examples.tools0 Examples.db_4900)
    = Some (Examples.laptop_goal (Some 5000)) /\
  Main.month_nonessential_budget (Main.mk_user 10000 5000) - 4000
    - Main.amount (Main.mk_tx 900 "Bistro" "food" Examples.now0)
  == float_or_0 (Tools.month_nonessential_budget (Examples.laptop_goal (Some 5000)))
     - total_spent_of Examples.tools0 Examples.db_4900 Examples.now0 /\
  Main.month_saving_goal (Main.mk_user 10000 5000) * (1 # 2)
  == Tools.target_amount (Examples.laptop_goal (Some 5000))
     * Tools.comfort_zone_threshold Tools.default_settings /\
  purchase_verdict (Main.mk_user 10000 5000)
    (Main.mk_tx 900 "Bistro" "food" Examples.now0) 4000
  = status_verdict Tools.default_settings Examples.tools0 Examples.db_4900
      Examples.now0.
Proof.
  assert (H1 : head (Tools.active_goals_query Examples.tools0 Examples.db_4900)
               = Some (Examples.laptop_goal (Some 5000))) by reflexivity.
  assert (H2 : Main.month_nonessential_budget (Main.mk_user 10000 5000) - 4000
                 - Main.amount (Main.mk_tx 900 "Bistro" "food" Examples.now0)
               == float_or_0 (Tools.month_nonessential_budget
                                (Examples.laptop_goal (Some 5000)))
                  - total_spent_of Examples.tools0 Examples.db_4900 Examples.now0)
    by (vm_compute; reflexivity).
  assert (H3 : Main.month_saving_goal (Main.mk_user 10000 5000) * (1 # 2)
               == Tools.target_amount (Examples.laptop_goal (Some 5000))
                  * Tools.comfort_zone_threshold Tools.default_settings)
    by (vm_compute; reflexivity).
  repeat (split; [assumption|]).
  pose proof (forms_share_tier_rule Tools.default_settings Examples.tools0
                Examples.db_4900 Examples.now0 (Examples.laptop_goal (Some 5000))
                (Main.mk_user 10000 5000)
                (Main.mk_tx 900 "Bistro" "food" Examples.now0) 4000 H1) as K.
  cbv zeta in K. destruct K as (_ & _ & _ & _ & K).
  exact (K H2 H3).
Defined.

(** Scenario 5 evaluates to ORANGE in both forms. *)
Example scenario_5 :
  purchase_verdict (Main.mk_user 10000 5000)
    (Main.mk_tx 900 "Bistro" "food" Examples.now0) 4000 = "ORANGE"%string
  /\ status_verdict Tools.default_settings Examples.tools0 Examples.db_4900
       Examples.now0 = "ORANGE"%string.
Proof. split; vm_compute; reflexivity. Qed.

Lemma no_goal_iff_no_active_goal_witness :
  head (Tools.active_goals_query Examples.tools0 Examples.db_no_budget)
    = Some (Examples.laptop_goal None) /\
  Tools.month_nonessential_budget (Examples.laptop_goal None) = None /\
  (status_verdict Tools.default_settings Examples.tools0 Examples.db_fresh
     Examples.now0 = "NO_GOAL"%string
   <-> head (Tools.active_goals_query Examples.tools0 Examples.db_fresh) = None) /\
  In (status_verdict Tools.default_settings Examples.tools0 Examples.db_no_budget
        Examples.now0) ["GREEN"; "ORANGE"; "RED"]%string.
Proof.
  assert (H1 : head (Tools.active_goals_query Examples.tools0 Examples.db_no_budget)
               = Some (Examples.laptop_goal None)) by reflexivity.
  assert (H2 : Tools.month_nonessential_budget (Examples.laptop_goal None) = None)
    by reflexivity.
  split; [assumption|]. split; [assumption|]. split.
  - exact (proj1 (no_goal_iff_no_active_goal Tools.default_settings Examples.tools0
                    Examples.db_fresh Examples.now0)).
  - exact (proj2 (proj2 (proj2 (no_goal_iff_no_active_goal Tools.default_settings
                                  Examples.tools0 Examples.db_no_budget
                                  Examples.now0))
                    (Examples.laptop_goal None) H1 H2)).
Defined.

Lemma zero_budget_read_paths_witness :
  head (Tools.active_goals_query Examples.tools0 Examples.db_zero_budget_spent)
    = Some (Examples.laptop_goal (Some 0)) /\
  Tools.month_nonessential_budget (Examples.laptop_goal (Some 0)) = Some 0 /\
  0 == 0 /\
  Tools.sa_remaining_budget
    (Tools.analyze_spending_pattern Examples.tools0 Examples.db_zero_budget_spent
       Examples.now0) = None /\
  status_verdict Tools.default_settings Examples.tools0
    Examples.db_zero_budget_spent Examples.now0 <> "NO_GOAL"%string.
Proof.
  assert (H1 : head (Tools.active_goals_query Examples.tools0
                       Examples.db_zero_budget_spent)
               = Some (Examples.laptop_goal (Some 0))) by reflexivity.
  assert (H2 : Tools.month_nonessential_budget (Examples.laptop_goal (Some 0))
               = Some 0) by reflexivity.
  assert (H3 : 0 == 0) by reflexivity.
  repeat (split; [assumption|]).
  pose proof (zero_budget_read_paths Tools.default_settings Examples.tools0
                Examples.db_zero_budget_spent Examples.now0
                (Examples.laptop_goal (Some 0)) 0 H1 H2 H3) as H.
  cbv zeta in H. destruct H as (_ & Hrem & _ & Hv & _).
  split; assumption.
Defined.

(** With a budget of exactly 0 and 100 spent, the two read paths give no
    remaining budget and the tier RED. *)
Example zero_budget_spent_is_red :
  Tools.check_budget_status Tools.default_settings Examples.tools0
    Examples.db_zero_budget_spent Examples.now0
  = Tools.StatusVerdict "RED" "over budget" (0 + 100) 0 (0 - (0 + 100)) 10000 "Laptop".
Proof. reflexivity. Qed.

End VerdictEngine.

(** ** Proofs: the monthly window *)

Section Calendar.

Import Datetime.

Ltac dt_unfold :=
  unfold Spec.in_calendar_month, leb, geb, ltb, compare, lex, month_start,
         next_month_start, same_month in *;
  cbn [year month day hour minute second microsecond] in *.

Ltac dt_cases :=
  repeat match goal with
         | |- context [Z.compare ?a ?b] => destruct (Z.compare_spec a b)
         end.

Lemma valid_bounds (d : datetime) :
  valid d = true ->
  1 <= month d <= 12 /\ 1 <= day d /\ 0 <= hour d /\ 0 <= minute d
  /\ 0 <= second d /\ 0 <= microsecond d.
Proof.
  unfold valid. rewrite !andb_true_iff, !Z.leb_le, !Z.ltb_lt. lia.
Qed.

(** [geb] and [ltb] are complementary. *)
Lemma ltb_negb_geb (a b : datetime) : ltb a b = negb (geb a b).
Proof. unfold ltb, geb. destruct (compare a b); reflexivity. Qed.

(** At or after the first instant of a month: a later year, or the same year
    and a month that is not earlier. *)
Lemma geb_month_start (ts now : datetime) :
  valid ts = true ->
  (geb ts (month_start now) = true
   <-> year now < year ts \/ (year ts = year now /\ month now <= month ts)).
Proof.
  intros Hv. apply valid_bounds in Hv. dt_unfold. dt_cases;
    (split; [intros; try discriminate; lia | intros; try reflexivity; lia]).
Qed.

(** Strictly before the first instant of the next month: an earlier year, or
    the same year and a month that is not later. *)
Lemma ltb_next_month_start (ts now : datetime) :
  valid ts = true -> valid now = true ->
  (ltb ts (next_month_start now) = true
   <-> year ts < year now \/ (year ts = year now /\ month ts <= month now)).
Proof.
  intros Hv Hn. apply valid_bounds in Hv. apply valid_bounds in Hn.
  unfold next_month_start.
  destruct (Z.eqb_spec (month now) 12) as [E|E]; dt_unfold; dt_cases;
    (split; [intros; try discriminate; lia | intros; try reflexivity; lia]).
Qed.

Lemma leb_year_month (ts now : datetime) :
  leb ts now = true ->
  year ts < year now \/ (year ts = year now /\ month ts <= month now).
Proof.
  dt_unfold. dt_cases; intros; try discriminate; lia.
Qed.

(** The window of the specification is the calendar month of [now]. *)
Lemma in_calendar_month_same_month (ts now : datetime) :
  valid ts = true -> valid now = true ->
  Spec.in_calendar_month ts now = same_month ts now.
Proof.
  intros Hv Hn.
  pose proof (geb_month_start ts now Hv) as Hg.
  pose proof (ltb_next_month_start ts now Hv Hn) as Hl.
  unfold Spec.in_calendar_month, same_month.
  destruct (geb ts (month_start now)), (ltb ts (next_month_start now));
    destruct (Z.eqb_spec (year ts) (year now)), (Z.eqb_spec (month ts) (month now));
    simpl; try reflexivity; exfalso;
    repeat match goal with
           | H : true = true <-> _ |- _ => destruct H as [H _]; specialize (H eq_refl)
           | H : false = true <-> _ |- _ =>
               let K := fresh in
               assert (K : ~ _) by (intros K; apply H in K; discriminate K);
               clear H
           end; lia.
Qed.

(** For a timestamp that is not later than [now], the lower bound alone
    decides membership of the calendar month. *)
Lemma geb_month_start_upto_now (ts now : datetime) :
  valid ts = true -> valid now = true -> leb ts now = true ->
  geb ts (month_start now) = Spec.in_calendar_month ts now.
Proof.
  intros Hv Hn Hle.
  pose proof (ltb_next_month_start ts now Hv Hn) as Hl.
  apply leb_year_month in Hle. apply Hl in Hle.
  unfold Spec.in_calendar_month. rewrite Hle. now rewrite andb_true_r.
Qed.

End Calendar.

(** ** Proofs: the order of datetimes *)

Section DatetimeOrder.

Import Datetime Behaviour.

Ltac order_unfold :=
  unfold leb, geb, ltb, compare, lex in *;
  cbn [year month day hour minute second microsecond] in *.

Ltac order_cases :=
  repeat match goal with
         | |- context [Z.compare ?a ?b] => destruct (Z.compare_spec a b)
         end.

Lemma geb_dt_ge (a b : datetime) : geb a b = true <-> dt_ge a b.
Proof.
  unfold dt_ge. order_unfold. order_cases;
    (split; [intros; try discriminate; lia | intros; try reflexivity; lia]).
Qed.

Lemma ltb_not_dt_ge (a b : datetime) : ltb a b = true <-> ~ dt_ge a b.
Proof.
  rewrite ltb_negb_geb, <- geb_dt_ge.
  destruct (geb a b); simpl; split; intros H; try discriminate; try reflexivity.
  exfalso. now apply H.
Qed.

Lemma geb_refl (a : datetime) : geb a a = true.
Proof. apply geb_dt_ge. unfold dt_ge. lia. Qed.

Lemma geb_trans (a b c : datetime) :
  geb a b = true -> geb b c = true -> geb a c = true.
Proof. rewrite !geb_dt_ge. unfold dt_ge. lia. Qed.

Lemma ltb_geb_flip (a b : datetime) : ltb a b = true -> geb b a = true.
Proof. rewrite ltb_not_dt_ge, geb_dt_ge. unfold dt_ge. lia. Qed.

Lemma ltb_trans (a b c : datetime) :
  ltb a b = true -> ltb b c = true -> ltb a c = true.
Proof. rewrite !ltb_not_dt_ge. unfold dt_ge. lia. Qed.

Lemma next_day_later (d : datetime) : ltb d (next_day d) = true.
Proof.
  apply ltb_not_dt_ge. unfold next_day, dt_ge.
  destruct (Z.ltb_spec (day d) (days_in_month (year d) (month d)));
    [|destruct (Z.ltb_spec (month d) 12)];
    cbn [year month day hour minute second microsecond]; lia.
Qed.

Lemma prev_day_earlier (d : datetime) : ltb (prev_day d) d = true.
Proof.
  apply ltb_not_dt_ge. unfold prev_day, dt_ge.
  destruct (Z.ltb_spec 1 (day d)); [|destruct (Z.ltb_spec 1 (month d))];
    cbn [year month day hour minute second microsecond]; lia.
Qed.

Lemma iter_next_day_later (d : datetime) (n : Z) :
  0 < n -> ltb d (Z.iter n next_day d) = true.
Proof.
  intros Hn. rewrite iter_nat_of_Z by lia.
  destruct (Z.abs_nat n) as [|k] eqn:E; [lia|]. clear E Hn.
  induction k as [|k IH]; cbn [nat_rect] in *.
  - apply next_day_later.
  - eapply ltb_trans; [exact IH | apply next_day_later].
Qed.

Lemma iter_prev_day_earlier (d : datetime) (n : Z) :
  0 < n -> ltb (Z.iter n prev_day d) d = true.
Proof.
  intros Hn. rewrite iter_nat_of_Z by lia.
  destruct (Z.abs_nat n) as [|k] eqn:E; [lia|]. clear E Hn.
  induction k as [|k IH]; cbn [nat_rect] in *.
  - apply prev_day_earlier.
  - eapply ltb_trans; [apply prev_day_earlier | exact IH].
Qed.

(** Adding days moves a datetime in the direction of the sign. *)
Lemma add_days_order (d : datetime) (n : Z) :
  (0 < n -> ltb d (add_days d n) = true)
  /\ (n < 0 -> ltb (add_days d n) d = true)
  /\ (n = 0 -> add_days d n = d).
Proof.
  unfold add_days. repeat split.
  - intros Hn. destruct (Z.leb_spec 0 n); [|lia]. now apply iter_next_day_later.
  - intros Hn. destruct (Z.leb_spec 0 n); [lia|]. apply iter_prev_day_earlier. lia.
  - intros ->. reflexivity.
Qed.

End DatetimeOrder.

Section Window.

Import Spec.

(** A conditional accumulation is the sum over the filtered list. *)
Lemma fold_left_if_sum {A : Type} (c : A -> bool) (f : A -> Q) (l : list A) (a : Q) :
  fold_left (fun total x => if c x then (total + f x)%Q else total) l a
  = fold_left Qplus (List.map f (List.filter c l)) a.
Proof.
  revert a. induction l as [|x l IH]; intros a; simpl; [reflexivity|].
  destruct (c x); simpl; apply IH.
Qed.

Lemma calc_month_nonessential_spend_sum {S : Type} `{!Main.StorageOps S}
    (st : S) (now : datetime) (uid : string) :
  Main.calc_month_nonessential_spend st now uid
  = fold_left Qplus
      (List.map Main.amount
         (List.filter (counted_by_calc now) (Main.get_user_transactions st uid)))
      0%Q.
Proof.
  unfold Main.calc_month_nonessential_spend.
  apply (fold_left_if_sum (counted_by_calc now) Main.amount).
Qed.

Lemma month_transactions_In self db now t :
  In t (Tools.month_transactions self db now)
  <-> In t (Tools.transactions db)
      /\ Tools.tx_user_id t = Tools.user_pk (Tools.user self)
      /\ Datetime.geb (Tools.timestamp t) (Datetime.month_start now) = true.
Proof.
  unfold Tools.month_transactions.
  rewrite filter_In, andb_true_iff, Z.eqb_eq. reflexivity.
Qed.

(** Both aggregators keep the rows stamped at or after the first instant of
    the month of [now]; when no stored row is stamped later than [now], these
    are the rows of the calendar month of [now]. *)
Lemma month_window_lower_bound {S : Type} `{!Main.StorageOps S}
    (self : Tools.AgentTools) (db : Tools.Session) (st : S) (uid : string)
    (now : datetime) :
  (forall t, In t (Tools.month_transactions self db now)
             <-> In t (Tools.transactions db)
                 /\ Tools.tx_user_id t = Tools.user_pk (Tools.user self)
                 /\ Datetime.geb (Tools.timestamp t) (Datetime.month_start now) = true)
  /\
  (forall t, Datetime.ltb (Tools.timestamp t) (Datetime.month_start now) = true ->
             ~ In t (Tools.month_transactions self db now))
  /\
  Main.calc_month_nonessential_spend st now uid
  = fold_left Qplus
      (List.map Main.amount
         (List.filter (counted_by_calc now) (Main.get_user_transactions st uid)))
      0%Q
  /\
  (Datetime.valid now = true ->
   (forall t, In t (Tools.transactions db) ->
      Datetime.valid (Tools.timestamp t) = true
      /\ Datetime.leb (Tools.timestamp t) now = true) ->
   (forall tx, In tx (Main.get_user_transactions st uid) ->
      Datetime.valid (Main.timestamp tx) = true
      /\ Datetime.leb (Main.timestamp tx) now = true) ->
   window_as_stated self db now
   /\
   Main.calc_month_nonessential_spend st now uid
   = fold_left Qplus
       (List.map Main.amount
          (List.filter
             (fun tx =>
                in_calendar_month (Main.timestamp tx) now
                && existsb (String.eqb (Main.category tx))
                     ["shopping"; "food"; "entertainment"]%string)
             (Main.get_user_transactions st uid)))
       0%Q).
Proof.
  split; [intros t; apply month_transactions_In|].
  split.
  { intros t Hlt Hin. apply month_transactions_In in Hin.
    destruct Hin as (_ & _ & Hge).
    rewrite ltb_negb_geb, Hge in Hlt. discriminate Hlt. }
  split; [apply calc_month_nonessential_spend_sum|].
  intros Hnow Hdb Hst. split.
  - intros t. rewrite month_transactions_In. split.
    + intros (Hin & Hu & Hge). repeat split; try assumption.
      destruct (Hdb t Hin) as [Hv Hle].
      now rewrite <- (geb_month_start_upto_now _ _ Hv Hnow Hle).
    + intros (Hin & Hu & Hm). repeat split; try assumption.
      destruct (Hdb t Hin) as [Hv Hle].
      now rewrite (geb_month_start_upto_now _ _ Hv Hnow Hle).
  - rewrite calc_month_nonessential_spend_sum. f_equal. f_equal.
    apply filter_ext_in. intros tx Hin. unfold counted_by_calc.
    destruct (Hst tx Hin) as [Hv Hle].
    now rewrite (geb_month_start_upto_now _ _ Hv Hnow Hle).
Qed.

(** In the mixed example the February purchase is left out: three
    transactions are counted. *)
Example mixed_month_count :
  Tools.sa_transaction_count
    (Tools.analyze_spending_pattern Examples.tools0 Examples.db_mixed Examples.now0)
  = 3%nat.
Proof. reflexivity. Qed.

End Window.

Section ProducedWindow.

Import Spec Behaviour.

Context {str_case : StrCase}.

(** Every row of a session produced while the clock runs up to [c] carries a
    valid stamp that is not later than [c]. *)
Lemma produced_until_stamps (db : Tools.Session) (c : datetime) :
  produced_until db c ->
  forall t, In t (Tools.transactions db) ->
    Datetime.valid (Tools.timestamp t) = true
    /\ Datetime.leb (Tools.timestamp t) c = true.
Proof.
  induction 1 as [c | db c c' Hp IH Hle | db c uid Hp IH | db c self r Hp IH
                  | db c self amount_ merchant_ category_ Hp IH Hv].
  - intros t [].
  - intros t Hin. destruct (IH t Hin) as [Hvt Hlt]. split; [exact Hvt|].
    unfold Datetime.leb in *. exact (geb_trans _ _ _ Hle Hlt).
  - intros t Hin. apply IH. revert Hin.
    unfold Tools.AgentTools_init, Tools._get_or_create_user.
    destruct (find _ _); cbn; exact (fun H => H).
  - intros t Hin. apply IH. exact Hin.
  - intros t Hin. unfold record_tx, Tools.add_transaction in Hin.
    cbn [fst Tools.transactions] in Hin. apply in_app_or in Hin.
    destruct Hin as [Hin | [<- | []]]; [exact (IH t Hin)|].
    cbn [Tools.timestamp]. split; [exact Hv|]. unfold Datetime.leb. apply geb_refl.
Qed.

(** C4.  On every session the tools produce, read at an instant [now] the
    clock has reached, the monthly aggregation works on exactly the user's
    transactions stamped in the calendar month of [now] (at or after its
    first instant, strictly before the first instant of the next month), in
    table order: the query of [analyze_spending_pattern] keeps these rows and
    no others, a row stamped outside the month is never among them, and the
    total, the category breakdown and the count are computed from these rows
    alone.  The same holds of [calc_month_nonessential_spend] on storage rows
    that are stamped at valid instants not later than [now]. *)
Theorem month_window_is_calendar_month {S : Type} `{!Main.StorageOps S}
    (self : Tools.AgentTools) (db : Tools.Session) (st : S) (uid : string)
    (now : datetime) :
  produced_until db now ->
  Datetime.valid now = true ->
  (forall tx, In tx (Main.get_user_transactions st uid) ->
      Datetime.valid (Main.timestamp tx) = true
      /\ Datetime.leb (Main.timestamp tx) now = true) ->
  window_as_stated self db now
  /\ Tools.month_transactions self db now = calendar_month_rows self db now
  /\ (forall t, in_calendar_month (Tools.timestamp t) now = false ->
                ~ In t (Tools.month_transactions self db now))
  /\ (let acc := fold_left Tools.spending_step (calendar_month_rows self db now)
                   (∅, 0%Q) in
      let result := Tools.analyze_spending_pattern self db now in
      Tools.sa_total_nonessential result = snd acc
      /\ Tools.sa_category_breakdown result = fst acc
      /\ Tools.sa_transaction_count result
         = length (calendar_month_rows self db now))
  /\ Main.calc_month_nonessential_spend st now uid
     = fold_left Qplus
         (List.map Main.amount
            (List.filter
               (fun tx =>
                  in_calendar_month (Main.timestamp tx) now
                  && existsb (String.eqb (Main.category tx))
                       ["shopping"; "food"; "entertainment"]%string)
               (Main.get_user_transactions st uid)))
         0%Q.
Proof.
  intros Hp Hnow Hst.
  pose proof (produced_until_stamps db now Hp) as Hdb.
  assert (Hrows : Tools.month_transactions self db now
                  = calendar_month_rows self db now).
  { unfold Tools.month_transactions, calendar_month_rows.
    apply filter_ext_in. intros t Hin. destruct (Hdb t Hin) as [Hv Hle].
    now rewrite (geb_month_start_upto_now _ _ Hv Hnow Hle). }
  assert (Hwin : window_as_stated self db now).
  { intros t. rewrite Hrows. unfold calendar_month_rows.
    rewrite filter_In, andb_true_iff, Z.eqb_eq. reflexivity. }
  split; [exact Hwin|]. split; [exact Hrows|]. split.
  { intros t Hout Hin. apply Hwin in Hin. destruct Hin as (_ & _ & Hm).
    rewrite Hm in Hout. discriminate Hout. }
  split.
  { cbv zeta. unfold Tools.analyze_spending_pattern.
    cbn [Tools.sa_total_nonessential Tools.sa_category_breakdown
         Tools.sa_transaction_count].
    rewrite Hrows. repeat split. }
  rewrite calc_month_nonessential_spend_sum. f_equal. f_equal.
  apply filter_ext_in. intros tx Hin. unfold counted_by_calc.
  destruct (Hst tx Hin) as [Hv Hle].
  now rewrite (geb_month_start_upto_now _ _ Hv Hnow Hle).
Qed.

End ProducedWindow.

Section ProducedWindowExamples.

Import Spec Behaviour.

#[local] Existing Instance Examples.ascii_case.

(** The mixed example is produced by a clock running from 20 February to 15
    March. *)
Lemma db_mixed_produced : produced_until Examples.db_mixed Examples.now0.
Proof.
  unfold Examples.db_mixed. cbv zeta.
  apply (produced_tx _ Examples.now0); [|reflexivity].
  apply (produced_tx _ Examples.now0); [|reflexivity].
  apply (produced_later _ Examples.march1); [|reflexivity].
  apply (produced_tx _ Examples.march1); [|reflexivity].
  apply (produced_later _ Examples.feb20); [|reflexivity].
  apply (produced_tx _ Examples.feb20); [|reflexivity].
  apply (produced_goal _ _ Examples.tools0
           (mk_GoalRequest Examples.now0 "Laptop" 10000 None (Some 5000%Q))).
  apply produced_user. apply produced_empty.
Qed.

Lemma month_window_is_calendar_month_witness :
  produced_until Examples.db_mixed Examples.now0
  /\ Datetime.valid Examples.now0 = true
  /\ Tools.month_transactions Examples.tools0 Examples.db_mixed Examples.now0
     = calendar_month_rows Examples.tools0 Examples.db_mixed Examples.now0.
Proof.
  assert (Hst : forall tx, In tx (Main.get_user_transactions Examples.st_over "u1") ->
                  Datetime.valid (Main.timestamp tx) = true
                  /\ Datetime.leb (Main.timestamp tx) Examples.now0 = true).
  { intros tx [<- | []]. split; reflexivity. }
  assert (Hv : Datetime.valid Examples.now0 = true) by reflexivity.
  split; [exact db_mixed_produced|]. split; [exact Hv|].
  exact (proj1 (proj2
           (month_window_is_calendar_month Examples.tools0 Examples.db_mixed
              Examples.st_over "u1" Examples.now0 db_mixed_produced Hv Hst))).
Defined.

(** In the mixed example the purchase of 20 February is outside the month of
    15 March and the three purchases of March are inside. *)
Example mixed_calendar_rows :
  List.map Tools.transaction_pk
    (calendar_month_rows Examples.tools0 Examples.db_mixed Examples.now0)
  = [2; 3; 4].
Proof. reflexivity. Qed.

End ProducedWindowExamples.

(** ** Proofs: the spending aggregator *)

Section Aggregator.

Import Spec.

Lemma nonessential_category_value (c : Tools.TransactionCategory) :
  Tools.nonessential (Tools.category_value c) = is_nonessential c.
Proof. destruct c; reflexivity. Qed.

(** The category map after one iteration of the loop. *)
Lemma spending_step_lookup (m : gmap string Q) (tot : Q) (t : Tools.Transaction)
    (k : string) :
  fst (Tools.spending_step (m, tot) t) !! k
  = if String.eqb (Tools.category_value (Tools.category t)) k
    then Some (default 0%Q (m !! k) + Tools.amount t)%Q
    else m !! k.
Proof.
  unfold Tools.spending_step. cbn [fst snd].
  set (c := Tools.category_value (Tools.category t)).
  destruct (String.eqb_spec c k) as [<- | Hne].
  - destruct (m !! c) as [v|] eqn:Hm.
    + rewrite Hm. now rewrite lookup_insert_eq.
    + rewrite lookup_insert_eq. now rewrite lookup_insert_eq.
  - destruct (m !! c) as [v|] eqn:Hm.
    + rewrite Hm. now rewrite lookup_insert_ne.
    + rewrite lookup_insert_eq. rewrite lookup_insert_ne by assumption.
      now rewrite lookup_insert_ne.
Qed.

Lemma spending_step_total (m : gmap string Q) (tot : Q) (t : Tools.Transaction) :
  snd (Tools.spending_step (m, tot) t)
  = if is_nonessential (Tools.category t) then (tot + Tools.amount t)%Q else tot.
Proof.
  unfold Tools.spending_step. cbn [fst snd].
  now rewrite nonessential_category_value.
Qed.

(** The category map after the whole loop, from any starting state. *)
Lemma spending_fold_lookup (W : list Tools.Transaction) (acc : gmap string Q * Q)
    (k : string) :
  fst (fold_left Tools.spending_step W acc) !! k
  = match fst acc !! k with
    | Some v =>
        Some (fold_left Qplus (List.map Tools.amount (with_category_value k W)) v)
    | None =>
        match with_category_value k W with
        | [] => None
        | l => Some (fold_left Qplus (List.map Tools.amount l) 0%Q)
        end
    end.
Proof.
  revert acc. induction W as [|t W IH]; intros [m tot].
  - simpl. destruct (m !! k); reflexivity.
  - cbn [fold_left]. rewrite IH, spending_step_lookup.
    unfold with_category_value. cbn [List.filter fst].
    destruct (String.eqb _ k).
    + destruct (m !! k); reflexivity.
    + destruct (m !! k); reflexivity.
Qed.

Lemma spending_fold_total (W : list Tools.Transaction) (acc : gmap string Q * Q) :
  snd (fold_left Tools.spending_step W acc)
  = fold_left Qplus
      (List.map Tools.amount
         (List.filter (fun t => is_nonessential (Tools.category t)) W))
      (snd acc).
Proof.
  revert acc. induction W as [|t W IH]; intros [m tot]; [reflexivity|].
  cbn [fold_left]. rewrite IH, spending_step_total. cbn [List.filter snd].
  destruct (is_nonessential (Tools.category t)); reflexivity.
Qed.

(** C5.  Over the in-window transactions [W], the non-essential total is the
    sum of the amounts of the transactions in the categories shopping, food
    and entertainment; the category map gives, for every key, the sum of the
    amounts of the transactions of that category, and nothing for a category
    without transaction; the count is the length of [W]; with an empty
    window the total is 0, the map is empty and the count is 0. *)
Theorem aggregator_totals self db now :
  let W := Tools.month_transactions self db now in
  let r := Tools.analyze_spending_pattern self db now in
  Tools.sa_total_nonessential r
  = sum_amounts (List.filter (fun t => is_nonessential (Tools.category t)) W)
  /\
  (forall k, Tools.sa_category_breakdown r !! k
             = match with_category_value k W with
               | [] => None
               | l => Some (sum_amounts l)
               end)
  /\
  Tools.sa_transaction_count r = length W
  /\
  (W = [] ->
   Tools.sa_total_nonessential r = 0%Q
   /\ Tools.sa_category_breakdown r = ∅
   /\ Tools.sa_transaction_count r = 0%nat).
Proof.
  cbv zeta. unfold Tools.analyze_spending_pattern. cbn.
  split; [apply spending_fold_total|].
  split; [intros k; rewrite spending_fold_lookup; reflexivity|].
  split; [reflexivity|].
  intros ->. repeat split.
Qed.

Lemma aggregator_totals_witness :
  Tools.month_transactions Examples.tools0 Examples.db_goal Examples.now0 = [] /\
  Tools.sa_total_nonessential
    (Tools.analyze_spending_pattern Examples.tools0 Examples.db_goal Examples.now0)
  = 0%Q /\
  Tools.sa_category_breakdown
    (Tools.analyze_spending_pattern Examples.tools0 Examples.db_goal Examples.now0)
  = ∅ /\
  Tools.sa_transaction_count
    (Tools.analyze_spending_pattern Examples.tools0 Examples.db_goal Examples.now0)
  = 0%nat.
Proof.
  assert (H : Tools.month_transactions Examples.tools0 Examples.db_goal
                Examples.now0 = []) by reflexivity.
  split; [assumption|].
  exact (proj2 (proj2 (proj2
           (aggregator_totals Examples.tools0 Examples.db_goal Examples.now0))) H).
Defined.

(** The mixed example: food 300 + 80, transport 120, and no entry for
    shopping, whose only purchase is of February. *)
Example mixed_breakdown :
  let r := Tools.analyze_spending_pattern Examples.tools0 Examples.db_mixed
             Examples.now0 in
  Tools.sa_category_breakdown r !! "food"%string = Some (0 + 300 + 80)%Q
  /\ Tools.sa_category_breakdown r !! "transport"%string = Some (0 + 120)%Q
  /\ Tools.sa_category_breakdown r !! "shopping"%string = None
  /\ Tools.sa_total_nonessential r = (0 + 300 + 80)%Q.
Proof. repeat split. Qed.

End Aggregator.

(** ** Proofs: the mutators *)

Section Mutators.

Import Spec.

Context {str_case : StrCase}.

(** [TransactionCategory[name]] succeeds exactly on the member names. *)
Lemma category_getitem_Some (name : string) (c : Tools.TransactionCategory) :
  Tools.category_getitem name = Some c <-> name = Tools.category_name c.
Proof.
  unfold Tools.category_getitem, Tools.all_categories. cbn [List.find].
  split.
  - repeat match goal with
           | |- context [String.eqb ?a name] => destruct (String.eqb_spec a name)
           end; intros H; inversion H; subst; try reflexivity; auto.
  - intros ->. destruct c; reflexivity.
Qed.

Lemma category_getitem_None (name : string) :
  Tools.category_getitem name = None
  <-> forall c, name <> Tools.category_name c.
Proof.
  split.
  - intros Hn c Hc. apply category_getitem_Some in Hc. congruence.
  - intros Hall. destruct (Tools.category_getitem name) as [c|] eqn:E; [|reflexivity].
    apply category_getitem_Some in E. now apply Hall in E.
Qed.

(** What [add_transaction] stores and returns, for every input. *)
Lemma add_transaction_spec self db now amount_ merchant_ category_ :
  let cat := match Tools.category_getitem (str_upper category_) with
             | Some c => c
             | None => Tools.OTHER
             end in
  let tx := Tools.mk_Transaction (Tools.next_pk (Tools.transactions db))
              (Tools.user_pk (Tools.user self)) amount_ merchant_ cat now in
  Tools.add_transaction self db now amount_ merchant_ category_
  = (Tools.mk_Session (Tools.users db) (Tools.goals db) (Tools.transactions db ++ [tx]),
     Tools.mk_TransactionInfo (Tools.transaction_pk tx) amount_ merchant_
       (Tools.category_value cat) now).
Proof. reflexivity. Qed.

(** C6.  For every category string whose upper-case form ([str.upper]) names
    no member of the category set, [add_transaction] stores the transaction
    with category OTHER and returns the stored record; it is a total
    function, so no input makes it fail.  The string ["xyz"] is such a
    string. *)
Theorem unknown_category_stored_as_other self db now amount_ merchant_ category_ :
  (forall c, str_upper category_ <> Tools.category_name c) ->
  let tx := Tools.mk_Transaction (Tools.next_pk (Tools.transactions db))
              (Tools.user_pk (Tools.user self)) amount_ merchant_ Tools.OTHER now in
  let r := Tools.add_transaction self db now amount_ merchant_ category_ in
  Tools.transactions (fst r) = (Tools.transactions db ++ [tx])%list
  /\ Tools.users (fst r) = Tools.users db
  /\ Tools.goals (fst r) = Tools.goals db
  /\ snd r = Tools.mk_TransactionInfo (Tools.transaction_pk tx) (Tools.amount tx)
               (Tools.merchant tx) "other" (Tools.timestamp tx)
  /\ (forall c, str_upper "xyz" <> Tools.category_name c).
Proof.
  intros Hunknown. cbv zeta. rewrite add_transaction_spec. cbv zeta.
  apply category_getitem_None in Hunknown. rewrite Hunknown.
  repeat split.
  rewrite (str_upper_ascii "xyz" eq_refl). intros c. destruct c; discriminate.
Qed.

(** C7 (amended).  Neither [add_transaction] nor [add_tx] checks the sign of
    the amount: for every amount, negative ones included, [add_transaction]
    appends exactly one record carrying that amount and returns it, and
    [add_tx], when the user exists, hands the amount of the request to the
    storage unchanged; when the user does not exist it leaves the storage as
    it was. *)
Theorem add_transaction_no_amount_check {S : Type} `{!Main.StorageOps S}
    `{!Main.FloatStr} self db now amount_ merchant_ category_
    (st : S) (body : Main.AddTransactionRequest) :
  (exists tx,
     Tools.transactions
       (fst (Tools.add_transaction self db now amount_ merchant_ category_))
     = (Tools.transactions db ++ [tx])%list
     /\ Tools.amount tx = amount_
     /\ Tools.ti_amount
          (snd (Tools.add_transaction self db now amount_ merchant_ category_))
        = amount_
     /\ Tools.ti_transaction_id
          (snd (Tools.add_transaction self db now amount_ merchant_ category_))
        = Tools.transaction_pk tx)
  /\
  match Main.get_user st (Main.user_id body) with
  | None => Main.add_tx st now body
            = (st, Main.UserNotFound false "User not found", None)
  | Some _ =>
      fst (fst (Main.add_tx st now body))
      = fst (Main.add_transaction st now (Main.user_id body) (Main.req_amount body)
               (Main.req_merchant body) (Main.req_category body))
  end.
Proof.
  split.
  - rewrite add_transaction_spec. cbv zeta. eexists. repeat split.
  - unfold Main.add_tx. destruct (Main.get_user st (Main.user_id body)); [|reflexivity].
    destruct (Main.add_transaction _ _ _ _ _ _) as [st' tx].
    destruct (Main.evaluate_purchase _ _ _) as [[v l] r]. reflexivity.
Qed.

(** The new goal passes the query of the active goals. *)
Lemma active_goals_query_set_goal self db r :
  Tools.active_goals_query self (set_goal self db r)
  = (Tools.active_goals_query self db ++ [stored_goal self db r])%list.
Proof.
  unfold Tools.active_goals_query, set_goal, Tools.set_saving_goal. cbn [fst Tools.goals].
  rewrite List.filter_app. f_equal.
  cbn [List.filter Tools.goal_user_id Tools.status].
  rewrite Z.eqb_refl. reflexivity.
Qed.

Lemma active_goals_query_set_goals self rs : forall db,
  length (Tools.active_goals_query self (set_goals self db rs))
  = (length (Tools.active_goals_query self db) + length rs)%nat.
Proof.
  induction rs as [|r rs IH]; intros db; simpl.
  - lia.
  - unfold set_goals in *. rewrite IH, active_goals_query_set_goal, length_app.
    simpl. lia.
Qed.

(** C8 (amended).  Setting a saving goal always adds one more ACTIVE goal and
    neither replaces nor deactivates an earlier one: the list of the user's
    active goals grows by the goal just set, which comes last; after any
    sequence of set-goal operations it has grown by their number; and the
    first active goal, the one the evaluations read, stays the oldest one. *)
Theorem set_goal_appends_active_goal self db r rs :
  Tools.get_active_goals self (set_goal self db r)
  = (Tools.get_active_goals self db ++ [Tools.goal_info (stored_goal self db r)])%list
  /\
  last (Tools.get_active_goals self (set_goal self db r))
  = Some (Tools.goal_info (stored_goal self db r))
  /\
  head (Tools.active_goals_query self (set_goal self db r))
  = match head (Tools.active_goals_query self db) with
    | Some g => Some g
    | None => Some (stored_goal self db r)
    end
  /\
  length (Tools.get_active_goals self (set_goals self db rs))
  = (length (Tools.get_active_goals self db) + length rs)%nat.
Proof.
  unfold Tools.get_active_goals.
  rewrite active_goals_query_set_goal, List.map_app. cbn [List.map].
  split; [reflexivity|].
  split; [apply last_snoc|].
  split; [apply head_snoc|].
  rewrite !length_map. apply active_goals_query_set_goals.
Qed.

(** C8 as stated fails: after a second set-goal the user has two active
    goals. *)
Lemma second_goal_keeps_first_active :
  ~ single_active_goal_as_stated Examples.tools0 Examples.db_goal phone_request.
Proof.
  intros H. apply (f_equal length) in H. vm_compute in H. discriminate H.
Qed.

Example two_active_goals :
  List.map Tools.gi_title
    (Tools.get_active_goals Examples.tools0
       (set_goal Examples.tools0 Examples.db_goal phone_request))
  = ["Laptop"; "Phone"]%string
  /\ Tools.gc_deadline
       (snd (Tools.set_saving_goal Examples.tools0 Examples.db_goal Examples.now0
               "Phone" 20000 (Some 30) (Some 3000%Q)))
     = Some (Datetime.mk_datetime 2025 4 14 12 0 0 0).
Proof. split; vm_compute; reflexivity. Qed.

End Mutators.

Section MutatorExamples.

Import Spec.

#[local] Existing Instance Examples.ascii_case.

(** Scenario 6: the category ["xyz"]. *)
Lemma unknown_category_stored_as_other_witness :
  (forall c, str_upper "xyz" <> Tools.category_name c) /\
  Tools.transactions
    (fst (Tools.add_transaction Examples.tools0 Examples.db_goal Examples.now0
            40 "Stall" "xyz"))
  = [Tools.mk_Transaction 1 1 40 "Stall" Tools.OTHER Examples.now0] /\
  Tools.ti_category
    (snd (Tools.add_transaction Examples.tools0 Examples.db_goal Examples.now0
            40 "Stall" "xyz")) = "other"%string.
Proof.
  assert (H : forall c, str_upper "xyz" <> Tools.category_name c)
    by (intros c; destruct c; discriminate).
  split; [assumption|].
  pose proof (unknown_category_stored_as_other Examples.tools0 Examples.db_goal
                Examples.now0 40 "Stall" "xyz" H) as K.
  cbv zeta in K. destruct K as (K1 & _ & _ & K2 & _).
  split; [exact K1 | exact (f_equal Tools.ti_category K2)].
Defined.

(** A known category is found whatever the case of its letters. *)
Example known_category_any_case :
  Tools.ti_category
    (snd (Tools.add_transaction Examples.tools0 Examples.db_goal Examples.now0
            40 "Stall" "eNtErTaInMeNt")) = "entertainment"%string.
Proof. reflexivity. Qed.

(** C7 as stated fails: a transaction of amount -5 is appended. *)
Lemma negative_amount_is_recorded :
  ~ rejects_negative_as_stated Examples.tools0 Examples.db_goal Examples.now0
      (-5) "Shop" "shopping".
Proof.
  intros H.
  assert (Hneg : (-5 < 0)%Q) by reflexivity.
  apply H in Hneg.
  apply (f_equal (fun d => length (Tools.transactions d))) in Hneg.
  vm_compute in Hneg. discriminate Hneg.
Qed.

Example negative_amount_record :
  Tools.transactions
    (fst (Tools.add_transaction Examples.tools0 Examples.db_goal Examples.now0
            (-5) "Shop" "shopping"))
  = [Tools.mk_Transaction 1 1 (-5) "Shop" Tools.SHOPPING Examples.now0].
Proof. reflexivity. Qed.

End MutatorExamples.

(** ** Proofs: the message composer *)

Section Composer.

Import Spec.
Local Open Scope Q_scope.

Lemma append_assoc (s1 s2 s3 : string) :
  (s1 +:+ s2) +:+ s3 = s1 +:+ (s2 +:+ s3).
Proof.
  induction s1 as [|a s1 IH]; [reflexivity|].
  change (String a ((s1 +:+ s2) +:+ s3) = String a (s1 +:+ (s2 +:+ s3))).
  now rewrite IH.
Qed.

Lemma occurs_in_here (sub post : string) : occurs_in sub (sub +:+ post).
Proof. exists EmptyString, post. reflexivity. Qed.

Lemma occurs_in_skip (p sub s : string) :
  occurs_in sub s -> occurs_in sub (p +:+ s).
Proof.
  intros (pre & post & ->). exists (p +:+ pre), post. now rewrite append_assoc.
Qed.

Ltac find_occurrence :=
  first [ apply occurs_in_here | apply occurs_in_skip; find_occurrence ].

Lemma max_0_nonneg (r : Q) : 0 <= Main.max_0 r.
Proof.
  unfold Main.max_0. destruct (Qle_bool 0 r) eqn:E; simpl.
  - now apply Qle_bool_iff.
  - lra.
Qed.

Lemma max_0_of_nonneg (r : Q) : 0 <= r -> Main.max_0 r = r.
Proof.
  intros H. unfold Main.max_0. apply Qle_bool_iff in H. now rewrite H.
Qed.

Lemma max_0_of_neg (r : Q) : r < 0 -> Main.max_0 r = 0.
Proof.
  intros H. unfold Main.max_0. apply Qle_bool_false in H. now rewrite H.
Qed.

Lemma Qabs_of_nonneg (x : Q) : 0 <= x -> Qabs x = x.
Proof.
  destruct x as [n d]. unfold Qle. cbn. intros H.
  rewrite Z.abs_eq by lia. reflexivity.
Qed.

(** A value that is not negative is rendered without a sign. *)
Lemma format_0f_of_nonneg (x : Q) :
  0 <= x -> Main.format_0f x = pretty (Main.round_half_even x).
Proof.
  intros H. unfold Main.format_0f. rewrite (Qabs_of_nonneg x H).
  apply Qle_bool_iff in H. rewrite H. reflexivity.
Qed.

(** [round_half_even] yields the nearest integer, the even one of two that
    are equally near. *)
Lemma round_half_even_nearest (x : Q) :
  Qabs (x - inject_Z (Main.round_half_even x)) <= 1 # 2
  /\ (Qabs (x - inject_Z (Main.round_half_even x)) == 1 # 2 ->
      Z.even (Main.round_half_even x) = true)
  /\ (0 <= x -> (0 <= Main.round_half_even x)%Z).
Proof.
  destruct x as [a d]. unfold Main.round_half_even. cbn [Qnum Qden].
  pose proof (Z.div_mod a (Z.pos d) ltac:(lia)) as Hdm.
  pose proof (Z.mod_pos_bound a (Z.pos d) ltac:(lia)) as Hr.
  set (q := (a / Z.pos d)%Z) in *. set (m := (a mod Z.pos d)%Z) in *.
  assert (Hq : (0 <= a -> 0 <= q)%Z) by (intros; apply Z.div_pos; lia).
  unfold Qabs, Qminus, Qplus, Qopp, Qle, Qeq, inject_Z. cbn [Qnum Qden].
  rewrite !Pos.mul_1_r, !Z.mul_1_r.
  destruct (Z.compare_spec (2 * m) (Z.pos d)) as [E|E|E].
  - destruct (Z.even q) eqn:Ev.
    + repeat split; intros; try assumption; try lia.
    + assert (Z.even (q + 1) = true).
      { rewrite Z.add_1_r, Z.even_succ, <- Z.negb_even, Ev. reflexivity. }
      repeat split; intros; try assumption; try lia.
  - repeat split; intros; try lia.
  - repeat split; intros; try lia.
Qed.

Context {S : Type} `{!Main.StorageOps S} `{!Main.FloatStr}.

(** C9.  The notification text is the five lines of [build_verdict_message]:
    it names the amount spent, the merchant, the monthly goal and the tier
    label, and shows the remaining budget through [max(remaining, 0)]
    rendered with no decimals: the digits of the integer nearest to the
    clamped value (ties to the even one), never with a minus sign; the
    clamped value is the remaining budget itself when that is not negative
    and 0, shown as "0", otherwise.  The clamping stays in the text: the
    response of [add_tx] carries the remaining budget computed by
    [evaluate_purchase], [budget - spent before - amount], as it is. *)
Theorem notification_clamps_display_only (user : Main.user_dict) (tx : Main.tx_dict)
    (verdict label : string) (r : Q) (st : S) (now : datetime)
    (body : Main.AddTransactionRequest) :
  let msg := Main.build_verdict_message user tx verdict label r in
  let shown := pretty (Main.round_half_even (Main.max_0 r)) in
  (occurs_in (Main.str_float (Main.amount tx)) msg
   /\ occurs_in (Main.merchant tx) msg
   /\ occurs_in (Main.str_float (Main.month_saving_goal user)) msg
   /\ occurs_in label msg
   /\ occurs_in (Main.format_0f (Main.max_0 r)) msg)
  /\
  (0 <= Main.max_0 r
   /\ (0 <= r -> Main.max_0 r = r)
   /\ (r < 0 -> Main.max_0 r = 0
                /\ msg = Main.build_verdict_message user tx verdict label 0))
  /\
  (forall u, Main.get_user st (Main.user_id body) = Some u ->
     exists st' tx' v l,
       Main.add_transaction st now (Main.user_id body) (Main.req_amount body)
         (Main.req_merchant body) (Main.req_category body) = (st', tx')
       /\
       let before :=
         Main.calc_month_nonessential_spend st' now (Main.user_id body)
         - Main.req_amount body in
       let raw := Main.month_nonessential_budget u - before - Main.amount tx' in
       Main.evaluate_purchase u tx' before = (v, l, raw)
       /\ Main.add_tx st now body
          = (st',
             Main.Evaluated true tx' v l before raw
               (Main.build_verdict_message u tx' v l raw) "telegram_send_triggered",
             Some (Main.build_verdict_message u tx' v l raw)))
  /\
  (msg =
     default "âšª" (Main.emoji_map !! verdict)
           +:+ " You just spent â‚¹" +:+ Main.str_float (Main.amount tx)
           +:+ " on " +:+ Main.merchant tx +:+ "." +:+ Main.nl
     +:+ "This month you want to save â‚¹"
           +:+ Main.str_float (Main.month_saving_goal user) +:+ "." +:+ Main.nl
     +:+ "Based on your current spending, this purchase is " +:+ label +:+ "."
           +:+ Main.nl +:+ Main.nl
     +:+ "Approx. non-essential budget left this month after this: â‚¹"
           +:+ shown +:+ "." +:+ Main.nl
     +:+ "If you want, we can adjust something else to keep you on track. ðŸ’¸")
  /\
  (Main.format_0f (Main.max_0 r) = shown
   /\ (0 <= Main.round_half_even (Main.max_0 r))%Z
   /\ Qabs (Main.max_0 r - inject_Z (Main.round_half_even (Main.max_0 r))) <= 1 # 2
   /\ (Qabs (Main.max_0 r - inject_Z (Main.round_half_even (Main.max_0 r)))
       == 1 # 2 ->
       Z.even (Main.round_half_even (Main.max_0 r)) = true)
   /\ (r < 0 -> shown = "0"%string)
   /\ (0 <= r -> shown = pretty (Main.round_half_even r))).
Proof.
  cbv zeta. split; [|split; [|split; [|split]]].
  - unfold Main.build_verdict_message. repeat split; find_occurrence.
  - split; [apply max_0_nonneg|]. split; [apply max_0_of_nonneg|].
    intros Hneg. split; [now apply max_0_of_neg|].
    unfold Main.build_verdict_message.
    rewrite (max_0_of_neg r Hneg). reflexivity.
  - intros u Hu. unfold Main.add_tx. rewrite Hu.
    destruct (Main.add_transaction st now (Main.user_id body) (Main.req_amount body)
                (Main.req_merchant body) (Main.req_category body)) as [st' tx'] eqn:Hadd.
    destruct (Main.evaluate_purchase u tx'
                (Main.calc_month_nonessential_spend st' now (Main.user_id body)
                 - Main.req_amount body)) as [[v l] raw] eqn:Heval.
    exists st', tx', v, l. split; [reflexivity|].
    pose proof (evaluate_purchase_spec u tx'
                  (Main.calc_month_nonessential_spend st' now (Main.user_id body)
                   - Main.req_amount body)) as [_ Hraw].
    cbv zeta in Hraw. rewrite Heval in Hraw. cbn [snd] in Hraw. subst raw.
    split; [exact Heval | reflexivity].
  - unfold Main.build_verdict_message. cbv zeta.
    rewrite (format_0f_of_nonneg _ (max_0_nonneg r)). reflexivity.
  - pose proof (round_half_even_nearest (Main.max_0 r)) as (Hnear & Heven & Hpos).
    split; [apply format_0f_of_nonneg, max_0_nonneg|].
    split; [apply Hpos, max_0_nonneg|].
    split; [exact Hnear|]. split; [exact Heven|]. split.
    + intros Hneg. rewrite (max_0_of_neg r Hneg). reflexivity.
    + intros Hnn. rewrite (max_0_of_nonneg r Hnn). reflexivity.
Qed.

End Composer.

Section ComposerExamples.

Import Spec.
Local Open Scope Q_scope.

Lemma notification_clamps_display_only_witness :
  Main.get_user Examples.st_over "u1" = Some (Main.mk_user 10000 5000) /\
  (- (1000) < 0) /\
  Main.max_0 (- (1000)) = 0 /\
  exists st' tx' v l,
    Main.add_transaction Examples.st_over Examples.now0 "u1" 500 "Bookshop" "shopping"
    = (st', tx')
    /\ @Main.add_tx _ _ Examples.whole_float_str Examples.st_over Examples.now0
         Examples.body_500
       = (st',
          Main.Evaluated true tx' v l
            (Main.calc_month_nonessential_spend st' Examples.now0 "u1" - 500)
            (5000 - (Main.calc_month_nonessential_spend st' Examples.now0 "u1" - 500)
             - Main.amount tx')
            (@Main.build_verdict_message Examples.whole_float_str
               (Main.mk_user 10000 5000) tx' v l
               (5000 - (Main.calc_month_nonessential_spend st' Examples.now0 "u1" - 500)
                - Main.amount tx'))
            "telegram_send_triggered",
          Some (@Main.build_verdict_message Examples.whole_float_str
                  (Main.mk_user 10000 5000) tx' v l
                  (5000 - (Main.calc_month_nonessential_spend st' Examples.now0 "u1" - 500)
                   - Main.amount tx'))).
Proof.
  assert (H1 : Main.get_user Examples.st_over "u1" = Some (Main.mk_user 10000 5000))
    by reflexivity.
  assert (H2 : - (1000) < 0) by reflexivity.
  split; [assumption|]. split; [assumption|].
  pose proof (@notification_clamps_display_only _ _ Examples.whole_float_str
                (Main.mk_user 10000 5000)
                (Main.mk_tx 500 "Bookshop" "shopping" Examples.now0)
                "RED" "hurting your saving goal this month" (- (1000))
                Examples.st_over Examples.now0 Examples.body_500) as K.
  cbv zeta in K.
  destruct K as (_ & (_ & _ & Kneg) & Kpayload & _).
  split; [exact (proj1 (Kneg H2))|].
  destruct (Kpayload _ H1) as (st' & tx' & v & l & Hadd & _ & Hresp).
  exists st', tx', v, l. split; [exact Hadd | exact Hresp].
Defined.

(** Scenario 3 at the endpoint: budget 5000, 5500 already spent, a purchase
    of 500.  The verdict is RED, the response carries a remaining budget of
    -1000, and the text shows 0. *)
Example scenario_3_response :
  match @Main.add_tx _ _ Examples.whole_float_str Examples.st_over Examples.now0
          Examples.body_500 with
  | (_, Main.Evaluated _ _ v _ _ remaining text _, sent) =>
      v = "RED"%string
      /\ remaining == - (1000)
      /\ String.index 0 "left this month after this: â‚¹0." text <> None
      /\ String.index 0 "â‚¹-" text = None
      /\ sent = Some text
  | _ => False
  end.
Proof. vm_compute. repeat split; try reflexivity; discriminate. Qed.

End ComposerExamples.

(** ** Proofs: users and isolation between users *)

Section Users.

Import Spec Behaviour.

Context {str_case : StrCase}.

Lemma find_app_none {A : Type} (f : A -> bool) (l l' : list A) :
  List.find f l = None -> List.find f (l ++ l') = List.find f l'.
Proof.
  induction l as [|x l IH]; simpl; [reflexivity|].
  destruct (f x); [discriminate | exact IH].
Qed.

Lemma find_app_some {A : Type} (f : A -> bool) (l l' : list A) (x : A) :
  List.find f l = Some x -> List.find f (l ++ l') = Some x.
Proof.
  induction l as [|y l IH]; simpl; [discriminate|].
  destruct (f y); [trivial | exact IH].
Qed.

(** X1.  [_get_or_create_user] returns a user with the requested telegram
    id that is in the resulting session; it leaves the session as it was when
    such a user exists and appends exactly that user otherwise; a second call
    finds the same user and changes nothing; and telegram ids that were
    unique stay unique. *)
Theorem get_or_create_user_upsert (db : Tools.Session) (uid : string) :
  let r := Tools._get_or_create_user db uid in
  Tools.telegram_id (snd r) = uid
  /\ In (snd r) (Tools.users (fst r))
  /\ ((exists u, In u (Tools.users db) /\ Tools.telegram_id u = uid) -> fst r = db)
  /\ ((forall u, In u (Tools.users db) -> Tools.telegram_id u <> uid) ->
      fst r = Tools.mk_Session (Tools.users db ++ [snd r]) (Tools.goals db)
                (Tools.transactions db))
  /\ Tools._get_or_create_user (fst r) uid = r
  /\ (NoDup (List.map Tools.telegram_id (Tools.users db)) ->
      NoDup (List.map Tools.telegram_id (Tools.users (fst r)))).
Proof.
  cbv zeta. unfold Tools._get_or_create_user.
  destruct (List.find (fun u => String.eqb (Tools.telegram_id u) uid) (Tools.users db))
    as [u|] eqn:Hfind; cbn [fst snd].
  - destruct (find_some _ _ Hfind) as [Hin Heq]. apply String.eqb_eq in Heq.
    repeat split; try assumption.
    + intros Hnone. exfalso. exact (Hnone u Hin Heq).
    + rewrite Hfind. reflexivity.
    + trivial.
  - pose proof (find_none _ _ Hfind) as Hnone.
    repeat split.
    + cbn. apply in_or_app. right. left. reflexivity.
    + intros (u & Hin & Heq). apply Hnone in Hin.
      apply String.eqb_neq in Hin. contradiction.
    + cbn [Tools.users]. rewrite (find_app_none _ _ _ Hfind). cbn.
      rewrite String.eqb_refl. reflexivity.
    + intros Hnd. cbn [Tools.users]. rewrite List.map_app. cbn.
      apply NoDup_app. split; [assumption|]. split.
      * intros x Hx Hx'. apply list_elem_of_In in Hx.
        apply in_map_iff in Hx. destruct Hx as (u & <- & Hu).
        apply list_elem_of_In in Hx'. destruct Hx' as [Hx'|[]].
        apply Hnone in Hu. apply String.eqb_neq in Hu. congruence.
      * apply NoDup_cons. split; [intros H; inversion H | apply NoDup_nil_2].
Qed.

Lemma get_or_create_user_upsert_witness :
  (exists u, In u (Tools.users Examples.db_goal) /\ Tools.telegram_id u = "u1"%string)
  /\ (forall u, In u (Tools.users Tools.empty_session) ->
        Tools.telegram_id u <> "u1"%string)
  /\ NoDup (List.map Tools.telegram_id (Tools.users Examples.db_goal))
  /\ fst (Tools._get_or_create_user Examples.db_goal "u1") = Examples.db_goal
  /\ fst (Tools._get_or_create_user Tools.empty_session "u1")
     = Tools.mk_Session
         ([] ++ [snd (Tools._get_or_create_user Tools.empty_session "u1")]) [] []
  /\ NoDup (List.map Tools.telegram_id
              (Tools.users (fst (Tools._get_or_create_user Examples.db_goal "u1")))).
Proof.
  assert (H1 : exists u, In u (Tools.users Examples.db_goal)
                         /\ Tools.telegram_id u = "u1"%string).
  { exists (Tools.mk_User 1 "u1"). split; [left|]; reflexivity. }
  assert (H2 : forall u, In u (Tools.users Tools.empty_session) ->
                 Tools.telegram_id u <> "u1"%string) by (intros u []).
  assert (H3 : NoDup (List.map Tools.telegram_id (Tools.users Examples.db_goal))).
  { apply NoDup_cons. split; [intros H; inversion H | apply NoDup_nil_2]. }
  repeat (split; [assumption|]).
  pose proof (get_or_create_user_upsert Examples.db_goal "u1") as K1.
  pose proof (get_or_create_user_upsert Tools.empty_session "u1") as K2.
  cbv zeta in K1, K2.
  destruct K1 as (_ & _ & K1a & _ & _ & K1f).
  destruct K2 as (_ & _ & _ & K2b & _).
  split; [exact (K1a H1)|]. split; [exact (K2b H2) | exact (K1f H3)].
Defined.

(** What [set_saving_goal] leaves in the session. *)
Lemma set_goal_session self db r :
  set_goal self db r
  = Tools.mk_Session (Tools.users db) (Tools.goals db ++ [stored_goal self db r])
      (Tools.transactions db).
Proof. reflexivity. Qed.

(** What [add_transaction] leaves in the session. *)
Lemma record_tx_session self db now amount_ merchant_ category_ :
  record_tx self db now amount_ merchant_ category_
  = Tools.mk_Session (Tools.users db) (Tools.goals db)
      (Tools.transactions db
       ++ [stored_transaction self db now amount_ merchant_ category_]).
Proof. reflexivity. Qed.

(** The readers depend on the session through the two queries only. *)
Lemma analyze_spending_pattern_ext self db db' now :
  Tools.month_transactions self db' now = Tools.month_transactions self db now ->
  Tools.active_goals_query self db' = Tools.active_goals_query self db ->
  Tools.analyze_spending_pattern self db' now
  = Tools.analyze_spending_pattern self db now.
Proof.
  intros Hm Hg. unfold Tools.analyze_spending_pattern. now rewrite Hm, Hg.
Qed.

Lemma check_budget_status_ext settings self db db' now :
  Tools.month_transactions self db' now = Tools.month_transactions self db now ->
  Tools.active_goals_query self db' = Tools.active_goals_query self db ->
  Tools.check_budget_status settings self db' now
  = Tools.check_budget_status settings self db now.
Proof.
  intros Hm Hg. unfold Tools.check_budget_status.
  now rewrite (analyze_spending_pattern_ext _ _ _ _ Hm Hg), Hg.
Qed.

(** X2.  What one user records never shows in what another user reads: a
    transaction or a goal written through the tools of one user leaves the
    spending analysis, the budget status, the active goals and the recent
    transactions of a user with another key as they were. *)
Theorem other_user_unaffected settings (self other : Tools.AgentTools)
    (db : Tools.Session) (now at_ : datetime) amount_ merchant_ category_
    (r : GoalRequest) (days : Z) :
  Tools.user_pk (Tools.user self) <> Tools.user_pk (Tools.user other) ->
  let db_tx := record_tx self db now amount_ merchant_ category_ in
  let db_goal := set_goal self db r in
  Tools.analyze_spending_pattern other db_tx at_
    = Tools.analyze_spending_pattern other db at_
  /\ Tools.check_budget_status settings other db_tx at_
     = Tools.check_budget_status settings other db at_
  /\ Tools.get_active_goals other db_tx = Tools.get_active_goals other db
  /\ Tools.fetch_recent_transactions other db_tx at_ days
     = Tools.fetch_recent_transactions other db at_ days
  /\ Tools.analyze_spending_pattern other db_goal at_
     = Tools.analyze_spending_pattern other db at_
  /\ Tools.check_budget_status settings other db_goal at_
     = Tools.check_budget_status settings other db at_
  /\ Tools.get_active_goals other db_goal = Tools.get_active_goals other db
  /\ Tools.fetch_recent_transactions other db_goal at_ days
     = Tools.fetch_recent_transactions other db at_ days.
Proof.
  intros Hne. cbv zeta.
  assert (Hpk : (Tools.user_pk (Tools.user self) =? Tools.user_pk (Tools.user other))
                = false) by now apply Z.eqb_neq.
  assert (Hm : Tools.month_transactions other
                 (record_tx self db now amount_ merchant_ category_) at_
               = Tools.month_transactions other db at_).
  { rewrite record_tx_session. unfold Tools.month_transactions.
    cbn [Tools.transactions]. rewrite List.filter_app.
    cbn [List.filter stored_transaction Tools.tx_user_id]. rewrite Hpk.
    cbn. apply app_nil_r. }
  assert (Hg : Tools.active_goals_query other (set_goal self db r)
               = Tools.active_goals_query other db).
  { rewrite set_goal_session. unfold Tools.active_goals_query.
    cbn [Tools.goals]. rewrite List.filter_app.
    cbn [List.filter stored_goal Tools.goal_user_id]. rewrite Hpk.
    cbn. apply app_nil_r. }
  repeat split.
  - now apply analyze_spending_pattern_ext.
  - now apply check_budget_status_ext.
  - unfold Tools.fetch_recent_transactions. rewrite record_tx_session.
    cbn [Tools.transactions]. rewrite List.filter_app.
    cbn [List.filter stored_transaction Tools.tx_user_id]. rewrite Hpk.
    cbn. now rewrite app_nil_r.
  - now apply analyze_spending_pattern_ext.
  - now apply check_budget_status_ext.
  - unfold Tools.get_active_goals. now rewrite Hg.
Qed.

End Users.

Section UsersExamples.

Import Spec Behaviour.

#[local] Existing Instance Examples.ascii_case.

Lemma other_user_unaffected_witness :
  Tools.user_pk (Tools.user Examples.tools_u2)
    <> Tools.user_pk (Tools.user Examples.tools0)
  /\ Tools.check_budget_status Tools.default_settings Examples.tools0
       (record_tx Examples.tools_u2 Examples.db_two_users Examples.now0
          9000 "Mall" "shopping") Examples.now0
     = Tools.check_budget_status Tools.default_settings Examples.tools0
         Examples.db_two_users Examples.now0.
Proof.
  assert (H : Tools.user_pk (Tools.user Examples.tools_u2)
              <> Tools.user_pk (Tools.user Examples.tools0))
    by (vm_compute; discriminate).
  split; [assumption|].
  exact (proj1 (proj2
           (other_user_unaffected Tools.default_settings Examples.tools_u2
              Examples.tools0 Examples.db_two_users Examples.now0 Examples.now0
              9000 "Mall" "shopping" phone_request 30 H))).
Defined.

End UsersExamples.

(** ** Proofs: recording and then reading *)

Section ReadAfterWrite.

Import Spec Behaviour.
Local Open Scope Q_scope.

Context {str_case : StrCase}.

(** The instant of recording is in the window of its own month. *)
Lemma geb_month_start_self (now : datetime) :
  Datetime.valid now = true ->
  Datetime.geb now (Datetime.month_start now) = true.
Proof.
  intros Hv. apply (geb_month_start now now Hv). right. split; [reflexivity|].
  apply Z.le_refl.
Qed.

(** The window after a recording: the old window, followed by the new row
    when it belongs to the window. *)
Lemma month_transactions_record_tx self db now at_ amount_ merchant_ category_ :
  Tools.month_transactions self (record_tx self db now amount_ merchant_ category_) at_
  = (Tools.month_transactions self db at_
     ++ (if Datetime.geb now (Datetime.month_start at_)
         then [stored_transaction self db now amount_ merchant_ category_]
         else []))%list.
Proof.
  rewrite record_tx_session. unfold Tools.month_transactions.
  cbn [Tools.transactions]. rewrite List.filter_app. f_equal.
  cbn [List.filter stored_transaction Tools.tx_user_id Tools.timestamp].
  rewrite Z.eqb_refl. cbn [andb].
  destruct (Datetime.geb now (Datetime.month_start at_)); reflexivity.
Qed.

Lemma active_goals_query_record_tx self db now amount_ merchant_ category_ :
  Tools.active_goals_query self (record_tx self db now amount_ merchant_ category_)
  = Tools.active_goals_query self db.
Proof. reflexivity. Qed.

(** X3.  Read after write: right after a transaction is recorded, the
    spending analysis of the same instant counts one transaction more, its
    non-essential total has grown by the amount when the stored category is
    shopping, food or entertainment and is unchanged otherwise, and the
    category map differs only at the stored category, whose entry has grown
    by the amount (from 0 when there was none). *)
Theorem recorded_transaction_is_aggregated self db now amount_ merchant_ category_ :
  Datetime.valid now = true ->
  let after :=
    Tools.analyze_spending_pattern self
      (record_tx self db now amount_ merchant_ category_) now in
  let before := Tools.analyze_spending_pattern self db now in
  let key := Tools.category_value (stored_category category_) in
  Tools.sa_transaction_count after = Datatypes.S (Tools.sa_transaction_count before)
  /\ Tools.sa_total_nonessential after
     = (if is_nonessential (stored_category category_)
        then Tools.sa_total_nonessential before + amount_
        else Tools.sa_total_nonessential before)
  /\ Tools.sa_category_breakdown after
     = <[key := default 0 (Tools.sa_category_breakdown before !! key) + amount_]>
         (Tools.sa_category_breakdown before)
  /\ Tools.sa_month_nonessential_budget after
     = Tools.sa_month_nonessential_budget before.
Proof.
  intros Hv. cbv zeta. unfold Tools.analyze_spending_pattern.
  cbn [Tools.sa_transaction_count Tools.sa_total_nonessential
       Tools.sa_category_breakdown Tools.sa_month_nonessential_budget].
  rewrite month_transactions_record_tx, (geb_month_start_self now Hv).
  rewrite active_goals_query_record_tx.
  rewrite fold_left_app. cbn [fold_left].
  destruct (fold_left Tools.spending_step (Tools.month_transactions self db now)
              (∅, 0)) as [m tot].
  cbn [fst snd].
  repeat split.
  - rewrite length_app. cbn. lia.
  - now rewrite spending_step_total.
  - apply map_eq. intros k. rewrite spending_step_lookup.
    cbn [stored_transaction Tools.category Tools.amount fst].
    destruct (String.eqb_spec (Tools.category_value (stored_category category_)) k)
      as [<- | Hne].
    + now rewrite lookup_insert_eq.
    + now rewrite lookup_insert_ne.
Qed.

(** The total after a recording, at any instant of analysis. *)
Lemma total_spent_record_tx self db now at_ amount_ merchant_ category_ :
  total_spent_of self (record_tx self db now amount_ merchant_ category_) at_
  = (if Datetime.geb now (Datetime.month_start at_)
        && is_nonessential (stored_category category_)
     then total_spent_of self db at_ + amount_
     else total_spent_of self db at_).
Proof.
  unfold total_spent_of, Tools.analyze_spending_pattern.
  cbn [Tools.sa_total_nonessential].
  rewrite month_transactions_record_tx, fold_left_app.
  destruct (Datetime.geb now (Datetime.month_start at_)); cbn [fold_left andb];
    [|reflexivity].
  destruct (fold_left Tools.spending_step _ _) as [m tot].
  now rewrite spending_step_total.
Qed.

Lemma tier_rank_tier_of_mono (r r' bound : Q) :
  r' <= r -> (tier_rank (tier_of r' bound) <= tier_rank (tier_of r bound))%nat.
Proof.
  intros Hle.
  destruct (tier_of_cases r bound) as [[H1 ->] | [(H1 & H2 & ->) | (H1 & H2 & ->)]];
  destruct (tier_of_cases r' bound) as [[G1 ->] | [(G1 & G2 & ->) | (G1 & G2 & ->)]];
    cbn; try lia; lra.
Qed.

(** X4.  Recording a transaction with a non-negative amount never improves
    the budget verdict, whenever the status is read: GREEN can become ORANGE
    or RED and ORANGE can become RED, never the other way round, and NO_GOAL
    stays NO_GOAL. *)
Theorem purchase_never_improves_verdict settings self db now at_
    amount_ merchant_ category_ :
  0 <= amount_ ->
  let v := status_verdict settings self db at_ in
  let v' := status_verdict settings self
              (record_tx self db now amount_ merchant_ category_) at_ in
  (tier_rank v' <= tier_rank v)%nat
  /\ (v' = "NO_GOAL"%string <-> v = "NO_GOAL"%string).
Proof.
  intros Ha. cbv zeta.
  destruct (head (Tools.active_goals_query self db)) as [g|] eqn:Hg.
  - rewrite (status_verdict_active settings self _ at_ g)
      by (now rewrite active_goals_query_record_tx).
    rewrite (status_verdict_active settings self db at_ g Hg).
    split.
    + apply tier_rank_tier_of_mono. rewrite total_spent_record_tx.
      destruct (_ && _); lra.
    + split; intros H; now apply tier_of_not_no_goal in H.
  - unfold status_verdict.
    rewrite (status_verdict_inactive settings self _ at_)
      by (now rewrite active_goals_query_record_tx).
    rewrite (status_verdict_inactive settings self db at_ Hg).
    split; [cbn; lia | reflexivity].
Qed.

(** X5.  A transaction stored under a category other than shopping, food or
    entertainment (transport, bills, other, and every unknown category
    string) leaves the budget status exactly as it was, whatever its amount
    and whenever the status is read. *)
Theorem essential_purchase_keeps_status settings self db now at_
    amount_ merchant_ category_ :
  is_nonessential (stored_category category_) = false ->
  Tools.check_budget_status settings self
    (record_tx self db now amount_ merchant_ category_) at_
  = Tools.check_budget_status settings self db at_
  /\ total_spent_of self (record_tx self db now amount_ merchant_ category_) at_
     = total_spent_of self db at_.
Proof.
  intros Hess.
  assert (Ht : total_spent_of self (record_tx self db now amount_ merchant_ category_) at_
               = total_spent_of self db at_).
  { rewrite total_spent_record_tx, Hess. now rewrite andb_false_r. }
  split; [|exact Ht].
  destruct (head (Tools.active_goals_query self db)) as [g|] eqn:Hg.
  - rewrite (check_budget_status_active settings self _ at_ g)
      by (now rewrite active_goals_query_record_tx).
    rewrite (check_budget_status_active settings self db at_ g Hg).
    cbv zeta. now rewrite Ht.
  - rewrite (status_verdict_inactive settings self _ at_)
      by (now rewrite active_goals_query_record_tx).
    now rewrite (status_verdict_inactive settings self db at_ Hg).
Qed.

End ReadAfterWrite.

Section ReadAfterWriteExamples.

Import Spec Behaviour.
Local Open Scope Q_scope.

#[local] Existing Instance Examples.ascii_case.

Lemma recorded_transaction_is_aggregated_witness :
  Datetime.valid Examples.now0 = true
  /\ Tools.sa_transaction_count
       (Tools.analyze_spending_pattern Examples.tools0
          (record_tx Examples.tools0 Examples.db_mixed Examples.now0 45 "Cinema"
             "Entertainment") Examples.now0)
     = Datatypes.S
         (Tools.sa_transaction_count
            (Tools.analyze_spending_pattern Examples.tools0 Examples.db_mixed
               Examples.now0)).
Proof.
  assert (H : Datetime.valid Examples.now0 = true) by reflexivity.
  split; [assumption|].
  exact (proj1 (recorded_transaction_is_aggregated Examples.tools0 Examples.db_mixed
                  Examples.now0 45 "Cinema" "Entertainment" H)).
Defined.

Lemma purchase_never_improves_verdict_witness :
  0 <= 200
  /\ (tier_rank
        (status_verdict Tools.default_settings Examples.tools0
           (record_tx Examples.tools0 Examples.db_4900 Examples.now0 200 "Mall"
              "shopping") Examples.now0)
      <= tier_rank
           (status_verdict Tools.default_settings Examples.tools0 Examples.db_4900
              Examples.now0))%nat.
Proof.
  assert (H : 0 <= 200) by (vm_compute; discriminate).
  split; [assumption|].
  exact (proj1 (purchase_never_improves_verdict Tools.default_settings
                  Examples.tools0 Examples.db_4900 Examples.now0 Examples.now0
                  200 "Mall" "shopping" H)).
Defined.

(** The purchase of 200 takes the 4900 example from ORANGE to RED. *)
Example purchase_orange_to_red :
  status_verdict Tools.default_settings Examples.tools0 Examples.db_4900
    Examples.now0 = "ORANGE"%string
  /\ status_verdict Tools.default_settings Examples.tools0
       (record_tx Examples.tools0 Examples.db_4900 Examples.now0 200 "Mall"
          "shopping") Examples.now0 = "RED"%string.
Proof. split; vm_compute; reflexivity. Qed.

Lemma essential_purchase_keeps_status_witness :
  is_nonessential (stored_category "xyz") = false
  /\ Tools.check_budget_status Tools.default_settings Examples.tools0
       (record_tx Examples.tools0 Examples.db_4900 Examples.now0 99999 "Landlord"
          "xyz") Examples.now0
     = Tools.check_budget_status Tools.default_settings Examples.tools0
         Examples.db_4900 Examples.now0.
Proof.
  assert (H : is_nonessential (stored_category "xyz") = false) by reflexivity.
  split; [assumption|].
  exact (proj1 (essential_purchase_keeps_status Tools.default_settings
                  Examples.tools0 Examples.db_4900 Examples.now0 Examples.now0
                  99999 "Landlord" "xyz" H)).
Defined.

End ReadAfterWriteExamples.

(** ** Proofs: what every reachable session satisfies *)

Section Reachable.

Import Spec Behaviour.

Context {str_case : StrCase}.

Lemma keyed_in_order_snoc {A : Type} (pk : A -> Z) (table : list A) (x : A) :
  keyed_in_order pk table -> pk x = Tools.next_pk table ->
  keyed_in_order pk (table ++ [x]).
Proof.
  intros Hk Hx i y Hi.
  destruct (decide (i < length table)%nat) as [Hlt|Hge].
  - rewrite lookup_app_l in Hi by assumption. now apply Hk.
  - rewrite lookup_app_r in Hi by lia.
    destruct (i - length table)%nat as [|n] eqn:E; cbn in Hi; [|discriminate].
    injection Hi as <-. rewrite Hx. unfold Tools.next_pk. lia.
Qed.

(** A key identifies its row. *)
Lemma keyed_in_order_inj {A : Type} (pk : A -> Z) (table : list A) (x y : A) :
  keyed_in_order pk table -> In x table -> In y table -> pk x = pk y -> x = y.
Proof.
  intros Hk Hx Hy Heq.
  apply list_elem_of_In, list_elem_of_lookup in Hx. destruct Hx as [i Hi].
  apply list_elem_of_In, list_elem_of_lookup in Hy. destruct Hy as [j Hj].
  pose proof (Hk i x Hi) as Hxi. pose proof (Hk j y Hj) as Hyj.
  assert (i = j) by lia. subst j. congruence.
Qed.

(** The two outcomes of [_get_or_create_user]. *)
Lemma get_or_create_user_cases (db : Tools.Session) (uid : string) :
  (exists u, In u (Tools.users db) /\ Tools.telegram_id u = uid
             /\ Tools._get_or_create_user db uid = (db, u))
  \/ ((forall u, In u (Tools.users db) -> Tools.telegram_id u <> uid)
      /\ Tools._get_or_create_user db uid
         = (Tools.mk_Session
              (Tools.users db ++ [Tools.mk_User (Tools.next_pk (Tools.users db)) uid])
              (Tools.goals db) (Tools.transactions db),
            Tools.mk_User (Tools.next_pk (Tools.users db)) uid)).
Proof.
  unfold Tools._get_or_create_user.
  destruct (List.find _ _) as [u|] eqn:Hfind.
  - left. destruct (find_some _ _ Hfind) as [Hin Heq]. apply String.eqb_eq in Heq.
    exists u. auto.
  - right. split; [|reflexivity].
    intros u Hin. apply (find_none _ _ Hfind) in Hin. now apply String.eqb_neq.
Qed.

Lemma consistent_init (db : Tools.Session) (uid : string) :
  consistent db -> consistent (fst (Tools.AgentTools_init db uid)).
Proof.
  intros [Hu Hg Ht Hnd Hact Hgo Hto]. unfold Tools.AgentTools_init.
  destruct (get_or_create_user_cases db uid)
    as [(u & _ & _ & ->) | (Hnone & ->)]; cbn [fst].
  - now constructor.
  - constructor; cbn [Tools.users Tools.goals Tools.transactions]; try assumption.
    + apply keyed_in_order_snoc; [assumption | reflexivity].
    + rewrite List.map_app. cbn. apply NoDup_app. split; [assumption|]. split.
      * intros x Hx Hx'. apply list_elem_of_In in Hx.
        apply in_map_iff in Hx. destruct Hx as (u & <- & Hin).
        apply list_elem_of_In in Hx'. destruct Hx' as [Hx'|[]].
        now apply (Hnone u Hin).
      * apply NoDup_cons. split; [intros H; inversion H | apply NoDup_nil_2].
    + intros g Hin. destruct (Hgo g Hin) as (u & Hu' & Hpk).
      exists u. split; [apply in_or_app; now left | assumption].
    + intros t Hin. destruct (Hto t Hin) as (u & Hu' & Hpk).
      exists u. split; [apply in_or_app; now left | assumption].
Qed.

Lemma consistent_set_goal self db r :
  consistent db -> In (Tools.user self) (Tools.users db) ->
  consistent (set_goal self db r).
Proof.
  intros [Hu Hg Ht Hnd Hact Hgo Hto] Hself. rewrite set_goal_session.
  constructor; cbn [Tools.users Tools.goals Tools.transactions]; try assumption.
  - apply keyed_in_order_snoc; [assumption | reflexivity].
  - intros g Hin. apply in_app_or in Hin. destruct Hin as [Hin | [<- | []]].
    + now apply Hact.
    + split; reflexivity.
  - intros g Hin. apply in_app_or in Hin. destruct Hin as [Hin | [<- | []]].
    + now apply Hgo.
    + exists (Tools.user self). split; [assumption | reflexivity].
Qed.

Lemma consistent_record_tx self db now amount_ merchant_ category_ :
  consistent db -> In (Tools.user self) (Tools.users db) ->
  consistent (record_tx self db now amount_ merchant_ category_).
Proof.
  intros [Hu Hg Ht Hnd Hact Hgo Hto] Hself. rewrite record_tx_session.
  constructor; cbn [Tools.users Tools.goals Tools.transactions]; try assumption.
  - apply keyed_in_order_snoc; [assumption | reflexivity].
  - intros t Hin. apply in_app_or in Hin. destruct Hin as [Hin | [<- | []]].
    + now apply Hto.
    + exists (Tools.user self). split; [assumption | reflexivity].
Qed.

(** X6.  In every session the tools can produce from the empty database:
    user, goal and transaction keys are 1, 2, ... in insertion order;
    telegram ids are unique, so two users are told apart by their key; every
    goal and every transaction belongs to a stored user; and every goal is
    still ACTIVE with nothing accumulated, so the active goals of a user are
    all the goals that user ever set. *)
Theorem reachable_sessions_are_consistent (db : Tools.Session) :
  reachable db ->
  consistent db
  /\ (forall u1 u2, In u1 (Tools.users db) -> In u2 (Tools.users db) ->
        Tools.user_pk u1 = Tools.user_pk u2 -> u1 = u2)
  /\ (forall self, Tools.active_goals_query self db
                   = List.filter
                       (fun g => Tools.goal_user_id g =? Tools.user_pk (Tools.user self))
                       (Tools.goals db)).
Proof.
  intros Hr.
  assert (Hc : consistent db).
  { induction Hr.
    - constructor; cbn.
      1-3: intros i x H; discriminate H.
      + apply NoDup_nil_2.
      + intros g [].
      + intros g [].
      + intros t [].
    - now apply consistent_init.
    - now apply consistent_set_goal.
    - now apply consistent_record_tx. }
  split; [exact Hc|]. split.
  - intros u1 u2 H1 H2 Heq.
    exact (keyed_in_order_inj _ _ _ _ (users_keyed db Hc) H1 H2 Heq).
  - intros self. unfold Tools.active_goals_query.
    apply filter_ext_in. intros g Hin.
    destruct (goals_untouched db Hc g Hin) as [-> _].
    now rewrite bool_decide_eq_true_2, andb_true_r.
Qed.

End Reachable.

Section ReachableExamples.

Import Spec Behaviour.

#[local] Existing Instance Examples.ascii_case.

Lemma reachable_sessions_are_consistent_witness :
  reachable Examples.db_goal
  /\ consistent Examples.db_goal.
Proof.
  assert (H : reachable Examples.db_goal).
  { apply (reach_goal Examples.db_fresh Examples.tools0
             (mk_GoalRequest Examples.now0 "Laptop" 10000 None (Some 5000%Q))).
    - apply (reach_user Tools.empty_session "u1"). apply reach_empty.
    - left. reflexivity. }
  split; [assumption|].
  exact (proj1 (reachable_sessions_are_consistent Examples.db_goal H)).
Defined.

End ReachableExamples.

(** ** Proofs: deadlines and recent transactions *)

Section Deadlines.

Import Spec Behaviour.

(** X8.  The deadline of a new goal follows the offset in days, wherever the
    sum [utcnow() + timedelta(days=deadline_days)] is defined (the call
    happens at a valid instant and a non-zero offset stays within the range
    of [timedelta] and leads to a year from 1 to 9999, so that no
    [OverflowError] is raised): no deadline when the offset is absent or 0, a
    datetime strictly later than the instant of the call for a positive
    offset and strictly earlier for a negative one; the returned record shows
    the deadline that is stored. *)
Theorem goal_deadline_follows_offset self db (r : GoalRequest) :
  Datetime.valid (gr_now r) = true ->
  (forall d, gr_deadline_days r = Some d -> d <> 0 ->
             Datetime.add_days_defined (gr_now r) d = true) ->
  let created :=
    snd (Tools.set_saving_goal self db (gr_now r) (gr_title r) (gr_target_amount r)
           (gr_deadline_days r) (gr_budget r)) in
  Tools.gc_deadline created = Tools.deadline (stored_goal self db r)
  /\ Tools.gc_goal_id created = Tools.goal_pk (stored_goal self db r)
  /\ Tools.gc_status created = "active"%string
  /\ match gr_deadline_days r with
     | None => Tools.gc_deadline created = None
     | Some d =>
         (d = 0 -> Tools.gc_deadline created = None)
         /\ (0 < d -> exists dl, Tools.gc_deadline created = Some dl
                                 /\ Datetime.ltb (gr_now r) dl = true
                                 /\ 1 <= Datetime.year dl <= 9999)
         /\ (d < 0 -> exists dl, Tools.gc_deadline created = Some dl
                                 /\ Datetime.ltb dl (gr_now r) = true
                                 /\ 1 <= Datetime.year dl <= 9999)
     end.
Proof.
  intros Hvalid Hdef. cbv zeta. unfold Tools.set_saving_goal, stored_goal.
  cbn [snd Tools.gc_deadline Tools.gc_goal_id Tools.gc_status Tools.deadline
       Tools.goal_pk Tools.status Tools.status_value].
  repeat split.
  destruct (gr_deadline_days r) as [d|]; [|reflexivity].
  unfold truthy_int. cbn [default].
  destruct (add_days_order (gr_now r) d) as (Hpos & Hneg & _).
  assert (Hyear : d <> 0 -> 1 <= Datetime.year (Datetime.add_days (gr_now r) d) <= 9999).
  { intros Hd. specialize (Hdef d eq_refl Hd). unfold Datetime.add_days_defined in Hdef.
    rewrite !andb_true_iff, !Z.leb_le in Hdef. lia. }
  split; [|split].
  - intros ->. reflexivity.
  - intros Hd. destruct (Z.eqb_spec d 0); [lia|]. cbn [negb].
    eexists. split; [reflexivity|]. split; [apply Hpos; lia | apply Hyear; lia].
  - intros Hd. destruct (Z.eqb_spec d 0); [lia|]. cbn [negb].
    eexists. split; [reflexivity|]. split; [apply Hneg; lia | apply Hyear; lia].
Qed.

Lemma goal_deadline_follows_offset_witness :
  Datetime.valid (gr_now phone_request) = true
  /\ 0 < 30
  /\ exists dl,
       Tools.gc_deadline
         (snd (Tools.set_saving_goal Examples.tools0 Examples.db_goal Examples.now0
                 "Phone" 20000 (Some 30) (Some 3000%Q))) = Some dl
       /\ Datetime.ltb Examples.now0 dl = true
       /\ 1 <= Datetime.year dl <= 9999.
Proof.
  assert (Hv : Datetime.valid (gr_now phone_request) = true) by reflexivity.
  assert (Hdef : forall d, gr_deadline_days phone_request = Some d -> d <> 0 ->
                           Datetime.add_days_defined (gr_now phone_request) d = true).
  { intros d Hd _. injection Hd as <-. vm_compute. reflexivity. }
  assert (H : 0 < 30) by lia.
  split; [assumption|]. split; [assumption|].
  exact (proj1 (proj2 (proj2 (proj2 (proj2
           (goal_deadline_follows_offset Examples.tools0 Examples.db_goal
              phone_request Hv Hdef))))) H).
Defined.

End Deadlines.

Section Recent.

Import Spec Behaviour.

Context {str_case : StrCase}.

Lemma insert_desc_perm (t : Tools.Transaction) (l : list Tools.Transaction) :
  Permutation (t :: l) (Tools.insert_desc t l).
Proof.
  induction l as [|x l IH]; cbn; [reflexivity|].
  destruct (Datetime.ltb _ _); [|reflexivity].
  rewrite perm_swap. now apply perm_skip.
Qed.

Lemma order_by_timestamp_desc_perm (l : list Tools.Transaction) :
  Permutation l (Tools.order_by_timestamp_desc l).
Proof.
  induction l as [|x l IH]; cbn; [reflexivity|].
  rewrite <- insert_desc_perm. now apply perm_skip.
Qed.

Lemma insert_desc_sorted (t : Tools.Transaction) (l : list Tools.Transaction) :
  StronglySorted rows_latest_first l ->
  StronglySorted rows_latest_first (Tools.insert_desc t l).
Proof.
  induction 1 as [|x l Hs IH Hall]; cbn.
  - constructor; constructor.
  - destruct (Datetime.ltb (Tools.timestamp t) (Tools.timestamp x)) eqn:E.
    + constructor; [exact IH|].
      rewrite <- insert_desc_perm. constructor; [|exact Hall].
      now apply ltb_geb_flip.
    + assert (Hge : rows_latest_first t x).
      { unfold rows_latest_first. rewrite ltb_negb_geb in E.
        now destruct (Datetime.geb _ _). }
      constructor; [now constructor|].
      constructor; [exact Hge|].
      eapply Forall_impl; [exact Hall|].
      intros y Hy. exact (geb_trans _ _ _ Hge Hy).
Qed.

Lemma order_by_timestamp_desc_sorted (l : list Tools.Transaction) :
  StronglySorted rows_latest_first (Tools.order_by_timestamp_desc l).
Proof.
  induction l as [|x l IH]; cbn; [constructor|]. now apply insert_desc_sorted.
Qed.

Lemma transaction_info_sorted (l : list Tools.Transaction) :
  StronglySorted rows_latest_first l ->
  StronglySorted latest_first (List.map Tools.transaction_info l).
Proof.
  induction 1 as [|x l Hs IH Hall]; cbn; constructor; [exact IH|].
  apply Forall_map. eapply Forall_impl; [exact Hall|]. intros y Hy. exact Hy.
Qed.

Lemma fetch_recent_transactions_perm self db now days :
  Permutation (List.map Tools.transaction_info (recent_rows self db now days))
              (Tools.fetch_recent_transactions self db now days).
Proof.
  unfold Tools.fetch_recent_transactions, recent_rows.
  apply Permutation_map, order_by_timestamp_desc_perm.
Qed.

(** X9.  Wherever the cutoff [utcnow() - timedelta(days=days)] is defined
    (the call happens at a valid instant, [days] stays within the range of
    [timedelta] and the cutoff falls in a year from 1 to 9999, so that no
    [OverflowError] is raised), [fetch_recent_transactions] returns the
    records of exactly the user's transactions stamped at or after the
    cutoff, each once, ordered from the latest to the earliest: every record
    is at least as late as every record after it. *)
Theorem fetch_recent_transactions_sorted self db now days :
  Datetime.valid now = true ->
  Datetime.add_days_defined now (- days) = true ->
  let result := Tools.fetch_recent_transactions self db now days in
  StronglySorted latest_first result
  /\ Permutation (List.map Tools.transaction_info (recent_rows self db now days))
                 result
  /\ length result = length (recent_rows self db now days)
  /\ (forall i, In i result <->
        exists t, In t (Tools.transactions db)
                  /\ Tools.tx_user_id t = Tools.user_pk (Tools.user self)
                  /\ Datetime.geb (Tools.timestamp t)
                       (Datetime.add_days now (- days)) = true
                  /\ i = Tools.transaction_info t).
Proof.
  intros _ _.
  cbv zeta. pose proof (fetch_recent_transactions_perm self db now days) as Hp.
  split; [|split; [exact Hp|split]].
  - unfold Tools.fetch_recent_transactions.
    apply transaction_info_sorted, order_by_timestamp_desc_sorted.
  - rewrite <- (Permutation_length Hp). apply length_map.
  - intros i. split.
    + intros Hi. apply (Permutation_in _ (Permutation_sym Hp)) in Hi.
      apply in_map_iff in Hi. destruct Hi as (t & <- & Ht).
      unfold recent_rows in Ht. apply filter_In in Ht. destruct Ht as [Hin Hc].
      apply andb_true_iff in Hc. destruct Hc as [Hu Hge]. apply Z.eqb_eq in Hu.
      exists t. auto.
    + intros (t & Hin & Hu & Hge & ->). apply (Permutation_in _ Hp).
      apply in_map. unfold recent_rows. apply filter_In. split; [assumption|].
      apply andb_true_iff. split; [now apply Z.eqb_eq | assumption].
Qed.

(** X10.  A transaction that was just recorded is among the recent
    transactions of the same instant, for every look-back of 0 days or more
    for which the cutoff [utcnow() - timedelta(days=days)] is defined (the
    instant is valid, [days] stays within the range of [timedelta] and the
    cutoff falls in a year from 1 to 9999, so that no [OverflowError] is
    raised). *)
Theorem recorded_transaction_is_recent self db now amount_ merchant_ category_ days :
  0 <= days ->
  Datetime.valid now = true ->
  Datetime.add_days_defined now (- days) = true ->
  In (Tools.transaction_info
        (stored_transaction self db now amount_ merchant_ category_))
     (Tools.fetch_recent_transactions self
        (record_tx self db now amount_ merchant_ category_) now days).
Proof.
  intros Hd _ _.
  apply (Permutation_in _ (fetch_recent_transactions_perm _ _ _ _)).
  apply in_map. unfold recent_rows. rewrite record_tx_session.
  cbn [Tools.transactions]. apply filter_In. split.
  - apply in_or_app. right. left. reflexivity.
  - cbn [stored_transaction Tools.tx_user_id Tools.timestamp].
    rewrite Z.eqb_refl. cbn [andb].
    destruct (add_days_order now (- days)) as (_ & Hneg & Hzero).
    destruct (Z.eq_dec days 0) as [-> | Hnz].
    + rewrite Hzero by reflexivity. apply geb_refl.
    + apply ltb_geb_flip, Hneg. lia.
Qed.

End Recent.

Section RecentExamples.

Import Spec Behaviour.

#[local] Existing Instance Examples.ascii_case.

Lemma fetch_recent_transactions_sorted_witness :
  Datetime.valid Examples.now0 = true
  /\ Datetime.add_days_defined Examples.now0 (- 30) = true
  /\ length (Tools.fetch_recent_transactions Examples.tools0 Examples.db_mixed
               Examples.now0 30)
     = length (recent_rows Examples.tools0 Examples.db_mixed Examples.now0 30).
Proof.
  assert (Hv : Datetime.valid Examples.now0 = true) by reflexivity.
  assert (Hd : Datetime.add_days_defined Examples.now0 (- 30) = true)
    by (vm_compute; reflexivity).
  split; [assumption|]. split; [assumption|].
  exact (proj1 (proj2 (proj2
           (fetch_recent_transactions_sorted Examples.tools0 Examples.db_mixed
              Examples.now0 30 Hv Hd)))).
Defined.

Lemma recorded_transaction_is_recent_witness :
  0 <= 30
  /\ Datetime.valid Examples.now0 = true
  /\ Datetime.add_days_defined Examples.now0 (- 30) = true
  /\ In (Tools.transaction_info
           (stored_transaction Examples.tools0 Examples.db_mixed Examples.now0
              45 "Cinema" "entertainment"))
        (Tools.fetch_recent_transactions Examples.tools0
           (record_tx Examples.tools0 Examples.db_mixed Examples.now0
              45 "Cinema" "entertainment") Examples.now0 30).
Proof.
  assert (H : 0 <= 30) by lia.
  assert (Hv : Datetime.valid Examples.now0 = true) by reflexivity.
  assert (Hd : Datetime.add_days_defined Examples.now0 (- 30) = true)
    by (vm_compute; reflexivity).
  split; [assumption|]. split; [assumption|]. split; [assumption|].
  exact (recorded_transaction_is_recent Examples.tools0 Examples.db_mixed
           Examples.now0 45 "Cinema" "entertainment" 30 H Hv Hd).
Defined.

(** The mixed example over the last 30 days: the two purchases of 15 March
    in table order, then 1 March, then 20 February. *)
Example mixed_recent_order :
  List.map Tools.ti_transaction_id
    (Tools.fetch_recent_transactions Examples.tools0 Examples.db_mixed
       Examples.now0 30) = [3; 4; 2; 1].
Proof. vm_compute. reflexivity. Qed.

End RecentExamples.

(** ** Proofs: the two read paths *)

Section ReadPaths.

Import Spec Behaviour.
Local Open Scope Q_scope.

Lemma float_or_0_nonzero (b : Q) : ~ b == 0 -> float_or_0 (Some b) = b.
Proof.
  intros Hb. unfold float_or_0, truthy_float.
  destruct (Qeq_bool b 0) eqn:E; [|reflexivity].
  apply Qeq_bool_iff in E. contradiction.
Qed.

(** X11.  With an active goal whose budget is configured and not 0, the
    spending analysis and the budget status report the same remaining
    budget, [budget - total_spent], and the same budget. *)
Theorem read_paths_agree_on_configured_budget settings self db now g b :
  head (Tools.active_goals_query self db) = Some g ->
  Tools.month_nonessential_budget g = Some b ->
  ~ b == 0 ->
  let total := total_spent_of self db now in
  let analysis := Tools.analyze_spending_pattern self db now in
  let status := Tools.check_budget_status settings self db now in
  Tools.sa_remaining_budget analysis = Some (b - total)
  /\ Tools.bs_remaining status = Some (b - total)
  /\ Tools.sa_month_nonessential_budget analysis = Some b
  /\ Mcp.getitem_budget status = Some b.
Proof.
  intros Hg Hb Hnz. cbv zeta.
  rewrite (check_budget_status_active settings self db now g Hg). cbv zeta.
  rewrite Hb, (float_or_0_nonzero b Hnz).
  unfold total_spent_of, Tools.analyze_spending_pattern.
  cbn [Tools.sa_remaining_budget Tools.sa_month_nonessential_budget
       Tools.sa_total_nonessential Tools.bs_remaining Mcp.getitem_budget].
  rewrite Hg, Hb. unfold truthy_float.
  destruct (Qeq_bool b 0) eqn:E.
  - apply Qeq_bool_iff in E. contradiction.
  - repeat split.
Qed.

Lemma read_paths_agree_on_configured_budget_witness :
  head (Tools.active_goals_query Examples.tools0 Examples.db_4900)
    = Some (Examples.laptop_goal (Some 5000))
  /\ Tools.month_nonessential_budget (Examples.laptop_goal (Some 5000)) = Some 5000
  /\ ~ 5000 == 0
  /\ Tools.sa_remaining_budget
       (Tools.analyze_spending_pattern Examples.tools0 Examples.db_4900 Examples.now0)
     = Some (5000 - total_spent_of Examples.tools0 Examples.db_4900 Examples.now0)
  /\ Tools.bs_remaining
       (Tools.check_budget_status Tools.default_settings Examples.tools0
          Examples.db_4900 Examples.now0)
     = Some (5000 - total_spent_of Examples.tools0 Examples.db_4900 Examples.now0).
Proof.
  assert (H1 : head (Tools.active_goals_query Examples.tools0 Examples.db_4900)
               = Some (Examples.laptop_goal (Some 5000))) by reflexivity.
  assert (H2 : Tools.month_nonessential_budget (Examples.laptop_goal (Some 5000))
               = Some 5000) by reflexivity.
  assert (H3 : ~ 5000 == 0) by (intros H; discriminate H).
  repeat (split; [assumption|]).
  pose proof (read_paths_agree_on_configured_budget Tools.default_settings
                Examples.tools0 Examples.db_4900 Examples.now0
                (Examples.laptop_goal (Some 5000)) 5000 H1 H2 H3) as K.
  cbv zeta in K. destruct K as (K1 & K2 & _). split; assumption.
Defined.

End ReadPaths.

(** ** Proofs: the conversational agent *)

Section Intents.

Import Spec Behaviour.

Context {str_case : StrCase}.

Lemma append_cons (a : ascii) (s1 s2 : string) :
  String a s1 +:+ s2 = String a (s1 +:+ s2).
Proof. reflexivity. Qed.

Lemma prefix_app (sub s : string) :
  String.prefix sub s = true <-> exists post, s = sub +:+ post.
Proof.
  revert s. induction sub as [|a sub IH]; intros s.
  - split; [intros _; exists s; reflexivity | intros _; destruct s; reflexivity].
  - destruct s as [|b s]; cbn [String.prefix].
    + split; [discriminate | intros [post H]; rewrite append_cons in H; discriminate H].
    + destruct (ascii_dec a b) as [->|Hne].
      * rewrite IH. split; intros [post H]; exists post.
        -- rewrite append_cons. now rewrite H.
        -- rewrite append_cons in H. now injection H.
      * split; [discriminate|]. intros [post H]. rewrite append_cons in H.
        injection H as H1 H2. congruence.
Qed.

(** [contains] decides the occurrence of a substring. *)
Lemma contains_occurs_in (sub s : string) :
  Mcp.contains sub s = true <-> occurs_in sub s.
Proof.
  induction s as [|c s IH]; cbn [Mcp.contains]; rewrite orb_true_iff.
  - split.
    + intros [H | H]; [|discriminate]. apply prefix_app in H as [post ->].
      exists EmptyString, post. reflexivity.
    + intros (pre & post & H). left. apply prefix_app.
      destruct pre as [|a pre]; [|rewrite append_cons in H; discriminate H].
      exists post. exact H.
  - rewrite IH. split.
    + intros [H | (pre & post & ->)].
      * apply prefix_app in H as [post ->]. exists EmptyString, post. reflexivity.
      * exists (String c pre), post. reflexivity.
    + intros (pre & post & H). destruct pre as [|a pre].
      * left. apply prefix_app. exists post. exact H.
      * right. rewrite append_cons in H. injection H as _ ->.
        exists pre, post. reflexivity.
Qed.

Lemma any_in_occurs_in (words : list string) (s : string) :
  Mcp.any_in words s = true <-> exists w, In w words /\ occurs_in w s.
Proof.
  unfold Mcp.any_in. rewrite existsb_exists.
  split; intros (w & Hin & H); exists w; (split; [assumption|]);
    now apply contains_occurs_in.
Qed.

Lemma lower_ascii_upper_ascii (c : ascii) :
  lower_ascii (upper_ascii c) = lower_ascii c.
Proof. destruct c as [[] [] [] [] [] [] [] []]; reflexivity. Qed.

Lemma lower_ascii_idem (c : ascii) :
  lower_ascii (lower_ascii c) = lower_ascii c.
Proof. destruct c as [[] [] [] [] [] [] [] []]; reflexivity. Qed.

Lemma lower_upper (s : string) : lower (upper s) = lower s.
Proof.
  induction s as [|c s IH]; cbn; [reflexivity|].
  now rewrite lower_ascii_upper_ascii, IH.
Qed.

Lemma lower_idem (s : string) : lower (lower s) = lower s.
Proof.
  induction s as [|c s IH]; cbn; [reflexivity|].
  now rewrite lower_ascii_idem, IH.
Qed.

Lemma is_ascii_upper_ascii (c : ascii) :
  (nat_of_ascii (upper_ascii c) <? 128)%nat = (nat_of_ascii c <? 128)%nat.
Proof. destruct c as [[] [] [] [] [] [] [] []]; reflexivity. Qed.

Lemma is_ascii_lower_ascii (c : ascii) :
  (nat_of_ascii (lower_ascii c) <? 128)%nat = (nat_of_ascii c <? 128)%nat.
Proof. destruct c as [[] [] [] [] [] [] [] []]; reflexivity. Qed.

Lemma is_ascii_upper (s : string) : is_ascii (upper s) = is_ascii s.
Proof.
  induction s as [|c s IH]; cbn [upper is_ascii]; [reflexivity|].
  now rewrite is_ascii_upper_ascii, IH.
Qed.

Lemma is_ascii_lower (s : string) : is_ascii (lower s) = is_ascii s.
Proof.
  induction s as [|c s IH]; cbn [lower is_ascii]; [reflexivity|].
  now rewrite is_ascii_lower_ascii, IH.
Qed.

(** On ASCII strings lowering undoes a change of case. *)
Lemma str_lower_str_upper (s : string) :
  is_ascii s = true -> str_lower (str_upper s) = str_lower s.
Proof.
  intros Hs. rewrite (str_upper_ascii s Hs).
  rewrite (str_lower_ascii (upper s)) by now rewrite is_ascii_upper.
  rewrite (str_lower_ascii s Hs). apply lower_upper.
Qed.

Lemma str_lower_idem (s : string) :
  is_ascii s = true -> str_lower (str_lower s) = str_lower s.
Proof.
  intros Hs. rewrite (str_lower_ascii s Hs).
  rewrite (str_lower_ascii (lower s)) by now rewrite is_ascii_lower.
  apply lower_idem.
Qed.

(** X13.  [_detect_intent] looks at the user's message only, through its
    lower-cased form [user_message.lower()]; it always answers one of the
    four intents, the first of set_goal, check_status and analyze_spending
    one of whose keywords occurs in the lower-cased message: set_goal exactly
    when one of "goal", "save", "want to buy", "planning" occurs, whatever
    else the message says, check_status exactly when none of these and one of
    "status", "how am i", "progress", "doing" occurs, analyze_spending
    exactly when none of these eight and one of "spent", "spending",
    "budget", "transactions" occurs, and general_chat exactly when none of
    the twelve occurs.  For a message of ASCII characters the answer does not
    depend on the case of its letters. *)
Theorem detect_intent_classifies (m r r' : string) :
  let none_of words := forall w, In w words -> ~ occurs_in w (str_lower m) in
  let one_of words := exists w, In w words /\ occurs_in w (str_lower m) in
  Mcp._detect_intent m r = Mcp._detect_intent m r'
  /\ In (Mcp._detect_intent m r)
        ["set_goal"; "check_status"; "analyze_spending"; "general_chat"]%string
  /\ (Mcp._detect_intent m r = "set_goal"%string <-> one_of goal_words)
  /\ (Mcp._detect_intent m r = "check_status"%string
      <-> none_of goal_words /\ one_of status_words)
  /\ (Mcp._detect_intent m r = "analyze_spending"%string
      <-> none_of (goal_words ++ status_words)%list /\ one_of spending_words)
  /\ (Mcp._detect_intent m r = "general_chat"%string
      <-> none_of (goal_words ++ status_words ++ spending_words)%list)
  /\ (is_ascii m = true ->
      Mcp._detect_intent (str_upper m) r = Mcp._detect_intent m r'
      /\ Mcp._detect_intent (str_lower m) r = Mcp._detect_intent m r').
Proof.
  cbv zeta. split; [reflexivity|].
  assert (Hcase : is_ascii m = true ->
            Mcp._detect_intent (str_upper m) r = Mcp._detect_intent m r'
            /\ Mcp._detect_intent (str_lower m) r = Mcp._detect_intent m r').
  { intros Hm. unfold Mcp._detect_intent.
    rewrite (str_lower_str_upper m Hm), (str_lower_idem m Hm). split; reflexivity. }
  revert Hcase. generalize (is_ascii m = true ->
            Mcp._detect_intent (str_upper m) r = Mcp._detect_intent m r'
            /\ Mcp._detect_intent (str_lower m) r = Mcp._detect_intent m r').
  intros P HP.
  unfold Mcp._detect_intent.
  fold goal_words status_words spending_words.
  pose proof (any_in_occurs_in goal_words (str_lower m)) as H1.
  pose proof (any_in_occurs_in status_words (str_lower m)) as H2.
  pose proof (any_in_occurs_in spending_words (str_lower m)) as H3.
  assert (Hsplit : forall l1 l2 : list string,
            (forall w, In w (l1 ++ l2)%list -> ~ occurs_in w (str_lower m))
            <-> (forall w, In w l1 -> ~ occurs_in w (str_lower m))
                /\ (forall w, In w l2 -> ~ occurs_in w (str_lower m))).
  { intros l1 l2. split.
    - intros H. split; intros w Hw; apply H, in_or_app; auto.
    - intros [Ha Hb] w Hw. apply in_app_or in Hw. destruct Hw; auto. }
  assert (Hnone : forall l : list string,
            (forall w, In w l -> ~ occurs_in w (str_lower m))
            <-> ~ exists w, In w l /\ occurs_in w (str_lower m)).
  { intros l. split.
    - intros H (w & Hw & Ho). exact (H w Hw Ho).
    - intros H w Hw Ho. apply H. eauto. }
  rewrite !Hsplit, !Hnone, <- H1, <- H2, <- H3.
  destruct (Mcp.any_in goal_words (str_lower m));
    [|destruct (Mcp.any_in status_words (str_lower m));
      [|destruct (Mcp.any_in spending_words (str_lower m))]];
    (split; [cbn; auto|]);
    repeat split; try discriminate; try assumption; try tauto;
    try (intros; exfalso; intuition congruence); intuition discriminate.
Qed.

(** The intent of the fallback, when it answers. *)
Lemma fallback_reasoning_intent {St : Type} (ctx : Mcp.Context St) (rz : Mcp.Reasoning) :
  Mcp._fallback_reasoning ctx = Some rz ->
  let l := str_lower (Mcp.user_message ctx) in
  Mcp.intent rz
  = if Mcp.contains "goal" l || Mcp.contains "save" l then "set_goal"%string
    else if Mcp.contains "status" l || Mcp.contains "progress" l
    then "check_status"%string
    else "general_chat"%string.
Proof.
  cbv zeta. unfold Mcp._fallback_reasoning.
  destruct (_ || _); [intros [= <-]; reflexivity|].
  destruct (_ || _); [|intros [= <-]; reflexivity].
  destruct (negb _); [|intros [= <-]; reflexivity].
  destruct (Mcp.getitem_total_spent _); [|discriminate].
  destruct (Mcp.getitem_budget _); [|discriminate].
  destruct (Mcp.getitem_remaining _); [|discriminate].
  cbn. intros [= <-]. reflexivity.
Qed.

(** X14.  The rule-based fallback and [_detect_intent] classify the same
    message consistently in one direction only: when the fallback answers
    set_goal so does [_detect_intent]; when the fallback answers check_status,
    [_detect_intent] answers check_status or set_goal; when [_detect_intent]
    answers general_chat so does the fallback; and the fallback never answers
    analyze_spending. *)
Theorem fallback_intent_refines_detect_intent {St : Type} (ctx : Mcp.Context St)
    (rz : Mcp.Reasoning) (r : string) :
  Mcp._fallback_reasoning ctx = Some rz ->
  let detected := Mcp._detect_intent (Mcp.user_message ctx) r in
  In (Mcp.intent rz) ["set_goal"; "check_status"; "general_chat"]%string
  /\ (Mcp.intent rz = "set_goal"%string -> detected = "set_goal"%string)
  /\ (Mcp.intent rz = "check_status"%string ->
      detected = "check_status"%string \/ detected = "set_goal"%string)
  /\ (detected = "general_chat"%string -> Mcp.intent rz = "general_chat"%string).
Proof.
  intros Hrz. cbv zeta. rewrite (fallback_reasoning_intent ctx rz Hrz). cbv zeta.
  unfold Mcp._detect_intent, Mcp.any_in. cbn [existsb].
  set (l := str_lower (Mcp.user_message ctx)).
  destruct (Mcp.contains "goal" l); cbn [orb];
    [repeat split; cbn; auto; discriminate|].
  destruct (Mcp.contains "save" l); cbn [orb];
    [repeat split; cbn; auto; discriminate|].
  destruct (Mcp.contains "status" l); cbn [orb].
  { destruct (Mcp.contains "want to buy" l); cbn [orb];
      [repeat split; cbn; auto; discriminate|].
    destruct (Mcp.contains "planning" l); cbn [orb];
      repeat split; cbn; auto; discriminate. }
  destruct (Mcp.contains "progress" l); cbn [orb].
  { destruct (Mcp.contains "want to buy" l); cbn [orb];
      [repeat split; cbn; auto; discriminate|].
    destruct (Mcp.contains "planning" l); cbn [orb];
      [repeat split; cbn; auto; discriminate|].
    destruct (Mcp.contains "how am i" l); cbn [orb];
      repeat split; cbn; auto; discriminate. }
  repeat split; cbn; auto; try discriminate.
Qed.

End Intents.

Section IntentExamples.

Import Spec Behaviour.

#[local] Existing Instance Examples.ascii_case.

Lemma detect_intent_classifies_witness :
  is_ascii "How am I doing?" = true
  /\ Mcp._detect_intent (str_upper "How am I doing?") EmptyString
     = Mcp._detect_intent "How am I doing?" "You are on track."
  /\ Mcp._detect_intent (str_lower "How am I doing?") EmptyString
     = Mcp._detect_intent "How am I doing?" "You are on track.".
Proof.
  assert (H : is_ascii "How am I doing?" = true) by reflexivity.
  split; [assumption|].
  exact (proj2 (proj2 (proj2 (proj2 (proj2 (proj2
           (detect_intent_classifies "How am I doing?" EmptyString
              "You are on track.")))))) H).
Defined.

(** A goal keyword wins over a status keyword; a question about spending
    with no earlier keyword is an analysis. *)
Example detect_intent_order :
  Mcp._detect_intent "How am I doing on my goal?" EmptyString = "set_goal"%string
  /\ Mcp._detect_intent "How am I doing?" EmptyString = "check_status"%string
  /\ Mcp._detect_intent "What have I SPENT?" EmptyString = "analyze_spending"%string
  /\ Mcp._detect_intent "Hello" EmptyString = "general_chat"%string.
Proof. repeat split. Qed.

End IntentExamples.

Section AgentCycle.

Import Spec Behaviour.
Local Open Scope Q_scope.

Context {str_case : StrCase} {SM St : Type}
  {session_manager : Mcp.SessionManagerOps SM St}.

(** The budget status [observe] puts in the context. *)
Lemma observed_status (self : Mcp.MCPAgent) (sm : SM) settings db now
    (msg : string) :
  let ctx := Mcp.observe self sm settings db now msg in
  match head (Tools.active_goals_query (Mcp.tools self) db) with
  | None =>
      Mcp.goals ctx = []
      /\ Mcp.budget_status ctx = Tools.StatusNoGoal "NO_GOAL" "No active goal set"
  | Some g =>
      let total := total_spent_of (Mcp.tools self) db now in
      let budget := float_or_0 (Tools.month_nonessential_budget g) in
      let bound := Tools.target_amount g * Tools.comfort_zone_threshold settings in
      Mcp.goals ctx <> []
      /\ Mcp.budget_status ctx
         = Tools.StatusVerdict (tier_of (budget - total) bound)
             (status_label (budget - total) bound) total budget (budget - total)
             (Tools.target_amount g) (Tools.title g)
  end.
Proof.
  cbv zeta. unfold Mcp.observe. cbn [Mcp.goals Mcp.budget_status].
  destruct (head (Tools.active_goals_query (Mcp.tools self) db)) as [g|] eqn:Hg.
  - rewrite (check_budget_status_active settings _ db now g Hg). split; [|reflexivity].
    unfold Tools.get_active_goals.
    destruct (Tools.active_goals_query (Mcp.tools self) db); [discriminate Hg|].
    discriminate.
  - rewrite (status_verdict_inactive settings _ db now Hg). split; [|reflexivity].
    unfold Tools.get_active_goals.
    destruct (Tools.active_goals_query (Mcp.tools self) db); [reflexivity|].
    discriminate Hg.
Qed.

Lemma tier_of_eqb_no_goal (remaining bound : Q) :
  String.eqb (tier_of remaining bound) "NO_GOAL" = false.
Proof. apply String.eqb_neq, tier_of_not_no_goal. Qed.

(** X16.  The context text of an observed state has one of two shapes: with
    no active goal it is exactly "No active goals set." and has no budget
    section; with an active goal it lists the active goals and is followed by
    the budget section with the verdict, its label, and the spent, budget and
    remaining amounts of the budget status.  No key is ever missing. *)
Theorem format_context_of_observed_state (self : Mcp.MCPAgent) (sm : SM)
    settings db now (msg : string) :
  let ctx := Mcp.observe self sm settings db now msg in
  match head (Tools.active_goals_query (Mcp.tools self) db) with
  | None => Mcp._format_context ctx = Some "No active goals set."%string
  | Some g =>
      let total := total_spent_of (Mcp.tools self) db now in
      let budget := float_or_0 (Tools.month_nonessential_budget g) in
      let bound := Tools.target_amount g * Tools.comfort_zone_threshold settings in
      Mcp._format_context ctx
      = Some (("Active Goals:" +:+ Main.nl
               +:+ Mcp.join Main.nl
                     (List.map Mcp.goal_line
                        (Tools.get_active_goals (Mcp.tools self) db)))
              +:+ (Main.nl +:+ Main.nl)
              +:+ budget_section (tier_of (budget - total) bound)
                    (status_label (budget - total) bound)
                    total budget (budget - total))
  end.
Proof.
  cbv zeta. pose proof (observed_status self sm settings db now msg) as H.
  cbv zeta in H.
  destruct (head (Tools.active_goals_query (Mcp.tools self) db)) as [g|].
  - destruct H as [Hgoals Hstatus]. unfold Mcp._format_context.
    rewrite Hstatus. cbn [Tools.bs_verdict]. rewrite tier_of_eqb_no_goal.
    cbn [negb Mcp.getitem_label Mcp.getitem_total_spent Mcp.getitem_budget
         Mcp.getitem_remaining mbind option_bind].
    destruct (Mcp.goals _) as [|g0 gs] eqn:E; [contradiction|].
    unfold Mcp.observe in E. cbn [Mcp.goals] in E. rewrite E. reflexivity.
  - destruct H as [Hgoals Hstatus]. unfold Mcp._format_context.
    rewrite Hstatus, Hgoals. reflexivity.
Qed.

Lemma format_context_observed (self : Mcp.MCPAgent) (sm : SM) settings db now
    (msg : string) :
  is_Some (Mcp._format_context (Mcp.observe self sm settings db now msg)).
Proof.
  pose proof (observed_status self sm settings db now msg) as H.
  cbv zeta in H. unfold Mcp._format_context.
  destruct (head (Tools.active_goals_query (Mcp.tools self) db)) as [g|];
    destruct H as [_ ->]; cbn [Tools.bs_verdict].
  - rewrite tier_of_eqb_no_goal. cbn. eauto.
  - cbn. eauto.
Qed.

Lemma fallback_reasoning_observed (self : Mcp.MCPAgent) (sm : SM) settings db now
    (msg : string) :
  is_Some (Mcp._fallback_reasoning (Mcp.observe self sm settings db now msg)).
Proof.
  pose proof (observed_status self sm settings db now msg) as H.
  cbv zeta in H. unfold Mcp._fallback_reasoning.
  destruct (_ || _); [eauto|]. destruct (_ || _); [|eauto].
  destruct (head (Tools.active_goals_query (Mcp.tools self) db)) as [g|];
    destruct H as [_ ->]; cbn [Tools.bs_verdict].
  - rewrite tier_of_eqb_no_goal. cbn. eauto.
  - cbn. eauto.
Qed.

(** X15.  [process_message] never fails on a missing key of the budget
    status, with or without a language-model client and whatever the client
    answers: it always returns a reply, and the session manager has then
    received the user's message followed by that reply. *)
Theorem process_message_always_replies (prompt : string) (self : Mcp.MCPAgent)
    (sm : SM) settings db now (msg : string) :
  exists reply,
    Mcp.process_message prompt self sm settings db now msg
    = Some (Mcp.add_to_history
              (Mcp.add_to_history sm (Mcp.agent_user_id self) "user" msg)
              (Mcp.agent_user_id self) "assistant" reply,
            reply).
Proof.
  unfold Mcp.process_message.
  assert (Hr : is_Some (Mcp.reason prompt self
                          (Mcp.observe self sm settings db now msg))).
  { unfold Mcp.reason.
    pose proof (fallback_reasoning_observed self sm settings db now msg) as Hf.
    destruct (Mcp.client self) as [llm|]; [|exact Hf].
    destruct (format_context_observed self sm settings db now msg) as [text ->].
    cbn [mbind option_bind]. destruct (llm _); [eauto | exact Hf]. }
  destruct Hr as [rz Hrz]. rewrite Hrz. cbn [mbind option_bind].
  exists (Mcp.response rz). reflexivity.
Qed.

(** X17.  The fallback's answer to a status question shows the remaining
    budget of the budget status as it is, without clamping: when the user is
    over budget the amount is rendered with a minus sign.  Without an active
    goal the answer is the invitation to set one. *)
Theorem fallback_status_reply_is_unclamped (self : Mcp.MCPAgent) (sm : SM)
    settings db now (msg : string) :
  Mcp.contains "goal" (str_lower msg) || Mcp.contains "save" (str_lower msg) = false ->
  Mcp.contains "status" (str_lower msg) || Mcp.contains "progress" (str_lower msg)
    = true ->
  let ctx := Mcp.observe self sm settings db now msg in
  match head (Tools.active_goals_query (Mcp.tools self) db) with
  | None =>
      Mcp._fallback_reasoning ctx
      = Some (Mcp.mk_Reasoning "check_status"
                "You haven't set a goal yet. Want to create one? 🎯" [])
  | Some g =>
      let total := total_spent_of (Mcp.tools self) db now in
      let budget := float_or_0 (Tools.month_nonessential_budget g) in
      let remaining := budget - total in
      Mcp._fallback_reasoning ctx
      = Some (Mcp.mk_Reasoning "check_status" (status_reply total budget remaining) [])
      /\ occurs_in (Main.format_0f remaining) (status_reply total budget remaining)
      /\ (remaining < 0 ->
          Main.format_0f remaining
          = "-" +:+ pretty (Main.round_half_even (Qabs remaining)))
  end.
Proof.
  intros Hgoal Hstatus. cbv zeta.
  pose proof (observed_status self sm settings db now msg) as H.
  cbv zeta in H. unfold Mcp._fallback_reasoning.
  assert (Hmsg : Mcp.user_message (Mcp.observe self sm settings db now msg) = msg)
    by reflexivity.
  rewrite Hmsg, Hgoal, Hstatus.
  destruct (head (Tools.active_goals_query (Mcp.tools self) db)) as [g|];
    destruct H as [_ ->]; cbn [Tools.bs_verdict].
  - rewrite tier_of_eqb_no_goal. split; [reflexivity|]. split.
    + unfold status_reply.
      repeat first [ apply occurs_in_here | apply occurs_in_skip ].
    + intros Hneg. unfold Main.format_0f.
      apply Qle_bool_false in Hneg. now rewrite Hneg.
  - reflexivity.
Qed.

End AgentCycle.

Section AgentExamples.

Import Spec Behaviour.
Local Open Scope Q_scope.

#[local] Existing Instance Examples.ascii_case.

Lemma fallback_intent_refines_detect_intent_witness :
  Mcp._fallback_reasoning
    (Mcp.observe Examples.agent0 (∅ : gmap string (list Mcp.ChatMessage))
       Tools.default_settings Examples.db_over Examples.now0 "What is my STATUS?")
  = Some (Mcp.mk_Reasoning "check_status" (status_reply (0 + 6000) 5000 (5000 - (0 + 6000))) [])
  /\ (Mcp._detect_intent "What is my STATUS?" "" = "check_status"%string
      \/ Mcp._detect_intent "What is my STATUS?" "" = "set_goal"%string).
Proof.
  assert (H : Mcp._fallback_reasoning
                (Mcp.observe Examples.agent0 (∅ : gmap string (list Mcp.ChatMessage))
                   Tools.default_settings Examples.db_over Examples.now0
                   "What is my STATUS?")
              = Some (Mcp.mk_Reasoning "check_status"
                        (status_reply (0 + 6000) 5000 (5000 - (0 + 6000))) []))
    by reflexivity.
  split; [assumption|].
  exact (proj1 (proj2 (proj2
           (fallback_intent_refines_detect_intent _ _ EmptyString H))) eq_refl).
Defined.

Lemma fallback_status_reply_is_unclamped_witness :
  Mcp.contains "goal" (str_lower "What is my STATUS?")
    || Mcp.contains "save" (str_lower "What is my STATUS?") = false
  /\ Mcp.contains "status" (str_lower "What is my STATUS?")
       || Mcp.contains "progress" (str_lower "What is my STATUS?") = true
  /\ Mcp._fallback_reasoning
       (Mcp.observe Examples.agent0 (∅ : gmap string (list Mcp.ChatMessage))
          Tools.default_settings Examples.db_over Examples.now0 "What is my STATUS?")
     = Some (Mcp.mk_Reasoning "check_status"
               (status_reply
                  (total_spent_of Examples.tools0 Examples.db_over Examples.now0)
                  (float_or_0 (Some 5000))
                  (float_or_0 (Some 5000)
                   - total_spent_of Examples.tools0 Examples.db_over Examples.now0))
               []).
Proof.
  assert (H1 : Mcp.contains "goal" (str_lower "What is my STATUS?")
               || Mcp.contains "save" (str_lower "What is my STATUS?") = false)
    by reflexivity.
  assert (H2 : Mcp.contains "status" (str_lower "What is my STATUS?")
               || Mcp.contains "progress" (str_lower "What is my STATUS?") = true)
    by reflexivity.
  split; [assumption|]. split; [assumption|].
  exact (proj1 (fallback_status_reply_is_unclamped Examples.agent0
                  (∅ : gmap string (list Mcp.ChatMessage)) Tools.default_settings
                  Examples.db_over Examples.now0 "What is my STATUS?" H1 H2)).
Defined.

(** Scenario 3 through the agent without a client: the reply to a status
    question shows a remaining budget of -1000. *)
Example over_budget_status_reply :
  option_map snd
    (Mcp.process_message EmptyString Examples.agent0
       (∅ : gmap string (list Mcp.ChatMessage)) Tools.default_settings
       Examples.db_over Examples.now0 "What is my STATUS?")
  = Some "You've spent ₹6000 out of ₹5000 this month. You have ₹-1000 left! 💰"%string.
Proof. vm_compute. reflexivity. Qed.

End AgentExamples.
